(** * Scikit-Learn-Miner: the paginated fetcher, the task extractors and the
      JSON-lines writer of [main.py], embedded in Rocq.

    Conventions of the embedding.
    - A Python [str] is a [string]; a character is a code point below 256
      (the Latin-1 part of Unicode), and [str.lower], the class [\w] and the
      case-insensitive comparison of [re] are the ones CPython has on that
      range.
    - A value decoded from the API ([response.json()]) is a [json] value;
      a Python dict keeps its insertion order, so it is an association list.
      Numbers are the integers (the fields read here are ids and counts).
    - The network is a list of responses: the n-th call of [requests.get]
      of one fetch is answered by the n-th element.  A fetch whose loop
      reaches a request the list has no answer to is [Pending].  The body of
      an answer without error is a JSON array.
    - [time.sleep] and [requests.get] leave an [event] in the trace of the
      fetch; [print] is not modelled.
    - The files on disk are a [gmap] from file names to file contents. *)

From Stdlib Require Import ZArith List String Ascii Bool Lia DecimalString.
From Stdlib Require DecimalFacts DecimalPos DecimalZ.
From stdpp Require Import gmap strings.
Import ListNotations.

Local Open Scope string_scope.
Local Open Scope list_scope.

(** ** Python strings *)

Module PyStr.

Definition code (c : ascii) : N := N_of_ascii c.

(** [str.lower] on one character: A-Z, and the Latin-1 capitals
    U+00C0..U+00DE except the multiplication sign U+00D7. *)
Definition lower_char (c : ascii) : ascii :=
  let n := code c in
  if ((65 <=? n) && (n <=? 90))%N
     || ((192 <=? n) && (n <=? 222) && negb (n =? 215))%N
  then ascii_of_N (n + 32)
  else c.

Fixpoint lower (s : string) : string :=
  match s with
  | EmptyString => EmptyString
  | String c t => String (lower_char c) (lower t)
  end.

(** [needle in hay] for two strings. *)
Fixpoint contains (needle hay : string) : bool :=
  String.prefix needle hay
  || match hay with
     | EmptyString => false
     | String _ t => contains needle t
     end.

(** Truth value of [os.getenv(..)]: [None] and the empty string are false. *)
Definition truthy (o : option string) : bool :=
  match o with
  | None => false
  | Some EmptyString => false
  | Some _ => true
  end.

End PyStr.

(** ** Decoded JSON values *)

#[local] Unset Elimination Schemes.
Inductive json : Type :=
| JNull
| JBool (b : bool)
| JInt (n : Z)
| JStr (s : string)
| JList (l : list json)
| JDict (d : list (string * json)).
#[local] Set Elimination Schemes.

(** ** The paginated fetcher *)

(** What one call of [requests.get] followed by [raise_for_status] and
    [response.json()] gives: a decoded page with the presence of ['next'] in
    [response.links], or a [RequestException] with its text [str(e)]. *)
Inductive response : Type :=
| Page (data : list json) (links_next : bool)
| RequestException (text : string).

Inductive event : Type :=
| EvGet (url : string) (per_page page : nat)
| EvSleep (seconds : nat).

Record loop_state : Type := { all_items : list json; page : nat }.

(** How one pass through the body of [while True] ends. *)
Inductive flow : Type :=
| Continue (st : loop_state)
| Break (st : loop_state)
| Return_None.

(** What is known of a call after a finite list of responses: it has
    returned, or it stands at the [requests.get] of page [page st] with
    [all_items st] accumulated, and the list holds no answer to it. *)
Inductive status (A : Type) : Type :=
| Returned (a : A)
| Pending (st : loop_state).
Arguments Returned {A} a.
Arguments Pending {A} st.

Definition ITEMS_PER_PAGE : nat := 100.

(** [l[:n]] for a Python integer [n]. *)
Definition slice_to {A : Type} (l : list A) (n : Z) : list A :=
  if (0 <=? n)%Z then firstn (Z.to_nat n) l
  else firstn (length l - Z.to_nat (- n)) l.

(** The two tests of the [except] branch on [str(e).lower()]. *)
Definition bad_credentials (text : string) : bool :=
  PyStr.contains "bad credentials" (PyStr.lower text).

Definition rate_limit_exceeded (text : string) : bool :=
  PyStr.contains "rate limit exceeded" (PyStr.lower text).

(** A response the [except] branch answers by waiting and asking again. *)
Definition rate_limited (r : response) : bool :=
  match r with
  | RequestException text => negb (bad_credentials text) && rate_limit_exceeded text
  | Page _ _ => false
  end.

Section Fetcher.

Variable GITHUB_TOKEN : option string.

(** [max_items is not None and len(all_items) >= max_items] *)
Definition cap_reached (max_items : option Z) (items : list json) : bool :=
  match max_items with
  | None => false
  | Some n => (n <=? Z.of_nat (length items))%Z
  end.

(** The body of the loop up to [requests.get]: [Some f] when the pass ends
    there without a request, [None] when the request is sent. *)
Definition before_request (max_items : option Z) (st : loop_state) : option flow :=
  if cap_reached max_items (all_items st) then Some (Break st)
  else if negb (PyStr.truthy GITHUB_TOKEN) then Some Return_None
  else None.

(** The body of the loop from the answer of [requests.get] on. *)
Definition after_request (st : loop_state) (r : response) : list event * flow :=
  match r with
  | Page data links_next =>
      match data with
      | [] => ([], Break st)
      | _ :: _ =>
          let items := all_items st ++ data in
          if negb links_next then ([], Break {| all_items := items; page := page st |})
          else ([EvSleep 1], Continue {| all_items := items; page := S (page st) |})
      end
  | RequestException text =>
      if bad_credentials text then ([], Break st)
      else if rate_limit_exceeded text
           then ([EvSleep 3601], Continue st)
           else ([], Break st)
  end.

Definition emit {A : Type} (evs : list event) (r : list event * A) : list event * A :=
  (evs ++ fst r, snd r).

(** [while True: ...], one response consumed by each request. *)
Fixpoint while_true (url : string) (max_items : option Z) (resps : list response)
    (st : loop_state) : list event * status flow :=
  match before_request max_items st with
  | Some f => ([], Returned f)
  | None =>
      let get := EvGet url ITEMS_PER_PAGE (page st) in
      match resps with
      | [] => ([], Pending st)
      | r :: rest =>
          match after_request st r with
          | (evs, Continue st') => emit (get :: evs) (while_true url max_items rest st')
          | (evs, f) => (get :: evs, Returned f)
          end
      end
  end.

(** The statements after the loop. *)
Definition after_loop (max_items : option Z) (f : flow) : option (list json) :=
  match f with
  | Return_None => None
  | Break st | Continue st =>
      match max_items with
      | Some n => Some (slice_to (all_items st) n)
      | None => Some (all_items st)
      end
  end.

Definition fetch_paginated_data (url : string) (max_items : option Z)
    (resps : list response) : list event * status (option (list json)) :=
  match while_true url max_items resps {| all_items := []; page := 1 |} with
  | (tr, Returned f) => (tr, Returned (after_loop max_items f))
  | (tr, Pending st) => (tr, Pending st)
  end.

End Fetcher.

(** The events of [n] requests for one page, each answered by a rate-limit
    rejection. *)
Fixpoint retries (url : string) (p n : nat) : list event :=
  match n with
  | O => []
  | S n' => EvGet url ITEMS_PER_PAGE p :: EvSleep (3600 + 1) :: retries url p n'
  end.

(** ** Python exceptions and the operations on decoded values *)

Inductive exn : Type :=
| KeyError (key : string)
| TypeError
| AttributeError.

Inductive result (A : Type) : Type :=
| Ok (a : A)
| Raise (e : exn).
Arguments Ok {A} a.
Arguments Raise {A} e.

Definition bind {A B : Type} (m : result A) (k : A -> result B) : result B :=
  match m with
  | Ok a => k a
  | Raise e => Raise e
  end.

Declare Scope py_scope.
Delimit Scope py_scope with py.
Notation "x <- m ;; k" := (bind m (fun x => k))
  (at level 100, m at next level, right associativity) : py_scope.
Local Open Scope py_scope.

Module Py.

Fixpoint lookup (k : string) (d : list (string * json)) : option json :=
  match d with
  | [] => None
  | (k', v) :: d' => if String.eqb k k' then Some v else lookup k d'
  end.

(** [v[k]] for a string key. *)
Definition getitem (v : json) (k : string) : result json :=
  match v with
  | JDict d => match lookup k d with Some x => Ok x | None => Raise (KeyError k) end
  | _ => Raise TypeError
  end.

(** [v.get(k, default)]; only a dict has the method. *)
Definition get (v : json) (k : string) (default : json) : result json :=
  match v with
  | JDict d => match lookup k d with Some x => Ok x | None => Ok default end
  | _ => Raise AttributeError
  end.

(** [k in v] for a string [k]: a key of a dict, an element of a list,
    a substring of a string. *)
Definition contains (k : string) (v : json) : result bool :=
  match v with
  | JDict d => Ok (match lookup k d with Some _ => true | None => false end)
  | JList l => Ok (existsb (fun x => match x with JStr s => String.eqb s k | _ => false end) l)
  | JStr s => Ok (PyStr.contains k s)
  | _ => Raise TypeError
  end.

(** [len(v)] *)
Definition len (v : json) : result nat :=
  match v with
  | JDict d => Ok (length d)
  | JList l => Ok (length l)
  | JStr s => Ok (String.length s)
  | _ => Raise TypeError
  end.

(** The elements [for x in v] goes through. *)
Definition iter (v : json) : result (list json) :=
  match v with
  | JList l => Ok l
  | JDict d => Ok (map (fun kv => JStr (fst kv)) d)
  | JStr s => Ok (map (fun c => JStr (String c EmptyString)) (list_ascii_of_string s))
  | _ => Raise TypeError
  end.

(** [for x in l: body], [body] working on an accumulator. *)
Fixpoint for_each {A S : Type} (l : list A) (body : A -> S -> result S) (s : S) : result S :=
  match l with
  | [] => Ok s
  | x :: l' => s' <- body x s ;; for_each l' body s'
  end.

End Py.

(** ** The regular expressions of [re] that the program uses *)

Module Re.

(** [\w] on one character: letters, digits and numeric characters of
    Latin-1, and the underscore. *)
Definition is_word (c : ascii) : bool :=
  let n := PyStr.code c in
  (((48 <=? n) && (n <=? 57)) || ((65 <=? n) && (n <=? 90)) || (n =? 95)
   || ((97 <=? n) && (n <=? 122))
   || (n =? 170) || (n =? 178) || (n =? 179) || (n =? 181) || (n =? 185) || (n =? 186)
   || ((188 <=? n) && (n <=? 190))
   || ((192 <=? n) && (n <=? 214)) || ((216 <=? n) && (n <=? 246))
   || ((248 <=? n) && (n <=? 255)))%N.

(** A literal of the pattern against a character of the subject, under
    [re.IGNORECASE]. *)
Definition ci_eq (p a : ascii) : bool :=
  Ascii.eqb (PyStr.lower_char a) (PyStr.lower_char p).

Inductive regex : Type :=
| Lit (c : ascii)
| Seq (r1 r2 : regex)
| Alt (r1 r2 : regex)
| Opt (r : regex)
| WordB.

Definition word_opt (o : option ascii) : bool :=
  match o with
  | Some c => is_word c
  | None => false
  end.

Definition head (s : string) : option ascii :=
  match s with
  | EmptyString => None
  | String c _ => Some c
  end.

(** [\b] between the character [prev] and the rest [s] of the subject. *)
Definition boundary (prev : option ascii) (s : string) : bool :=
  xorb (word_opt prev) (word_opt (head s)).

(** Backtracking matcher: [r] at the start of [s], the character before it
    being [prev]; [k] is what must match after it. *)
Fixpoint rmatch (r : regex) (prev : option ascii) (s : string)
    (k : option ascii -> string -> bool) : bool :=
  match r with
  | Lit c =>
      match s with
      | EmptyString => false
      | String a t => ci_eq c a && k (Some a) t
      end
  | Seq r1 r2 => rmatch r1 prev s (fun p t => rmatch r2 p t k)
  | Alt r1 r2 => rmatch r1 prev s k || rmatch r2 prev s k
  | Opt r1 => rmatch r1 prev s k || k prev s
  | WordB => boundary prev s && k prev s
  end.

Fixpoint search_from (r : regex) (prev : option ascii) (s : string) : bool :=
  rmatch r prev s (fun _ _ => true)
  || match s with
     | EmptyString => false
     | String a t => search_from r (Some a) t
     end.

(** Truth value of [r.search(s)]. *)
Definition search (r : regex) (s : string) : bool := search_from r None s.

(** The literal characters of a word, in sequence. *)
Fixpoint lits (c : ascii) (s : string) : regex :=
  match s with
  | EmptyString => Lit c
  | String c' t => Seq (Lit c) (lits c' t)
  end.

Definition word (s : string) : regex :=
  match s with
  | EmptyString => Opt WordB
  | String c t => lits c t
  end.

End Re.

(** [re.compile(r'\b(fix(es|ed)?|bug|patch|correct(s|ed)?)\b', re.IGNORECASE)] *)
Definition fix_keywords : Re.regex :=
  Re.Seq Re.WordB
    (Re.Seq
       (Re.Alt (Re.Seq (Re.word "fix") (Re.Opt (Re.Alt (Re.word "es") (Re.word "ed"))))
          (Re.Alt (Re.word "bug")
             (Re.Alt (Re.word "patch")
                (Re.Seq (Re.word "correct") (Re.Opt (Re.Alt (Re.word "s") (Re.word "ed")))))))
       Re.WordB).

(** ** The writer *)

Module Json.

Definition NL : ascii := "010"%char.
Definition DQ : ascii := "034"%char.

Definition hex_digit (n : N) : ascii :=
  if (n <? 10)%N then ascii_of_N (48 + n) else ascii_of_N (87 + n).

(** What [json.dumps(.., ensure_ascii=False)] writes for one character of a
    string: the two-character escapes, [\u00XX] for the other characters
    below U+0020, and the character itself otherwise. *)
Definition escape_char (c : ascii) : string :=
  let n := PyStr.code c in
  if (n =? 34)%N then String "\" (String DQ "")
  else if (n =? 92)%N then "\\"
  else if (n =? 10)%N then "\n"
  else if (n =? 13)%N then "\r"
  else if (n =? 9)%N then "\t"
  else if (n =? 8)%N then "\b"
  else if (n =? 12)%N then "\f"
  else if (n <? 32)%N
       then "\u00" +:+ String (hex_digit (n / 16)) (String (hex_digit (n mod 16)) "")
       else String c "".

Fixpoint escape (s : string) : string :=
  match s with
  | EmptyString => ""
  | String c t => escape_char c +:+ escape t
  end.

Definition dumps_str (s : string) : string :=
  String DQ (escape s +:+ String DQ "").

Definition dumps_int (n : Z) : string := DecimalString.NilZero.string_of_int (Z.to_int n).

(** [json.dumps(v, ensure_ascii=False)], with the default separators. *)
Fixpoint dumps (v : json) : string :=
  match v with
  | JNull => "null"
  | JBool true => "true"
  | JBool false => "false"
  | JInt n => dumps_int n
  | JStr s => dumps_str s
  | JList [] => "[]"
  | JList (x :: l) =>
      "[" +:+ dumps x
      +:+ (fix tail (l : list json) : string :=
             match l with
             | [] => ""
             | y :: l' => ", " +:+ dumps y +:+ tail l'
             end) l
      +:+ "]"
  | JDict [] => "{}"
  | JDict ((k, x) :: d) =>
      "{" +:+ dumps_str k +:+ ": " +:+ dumps x
      +:+ (fix tail (d : list (string * json)) : string :=
             match d with
             | [] => ""
             | (k', y) :: d' => ", " +:+ dumps_str k' +:+ ": " +:+ dumps y +:+ tail d'
             end) d
      +:+ "}"
  end.

(** The two inner loops of [dumps], by name. *)
Definition dumps_tail : list json -> string :=
  fix tail (l : list json) : string :=
    match l with
    | [] => ""
    | y :: l' => ", " +:+ dumps y +:+ tail l'
    end.

Definition dumps_members : list (string * json) -> string :=
  fix tail (d : list (string * json)) : string :=
    match d with
    | [] => ""
    | (k', y) :: d' => ", " +:+ dumps_str k' +:+ ": " +:+ dumps y +:+ tail d'
    end.

End Json.

(** [save_to_jsonl]: the file is opened with mode ['w'], each item is written
    as one [json.dumps] text followed by a newline. *)
Definition save_to_jsonl (filename : string) (data_list : list json)
    (fs : gmap string string) : gmap string string :=
  <[filename :=
      fold_left (fun f item => f +:+ (Json.dumps item +:+ String Json.NL "")) data_list ""]> fs.

(** ** The task extractors *)

Definition BASE_URL : string := "https://api.github.com/repos/scikit-learn/scikit-learn".

(** The body of [for issue in issues] of [task_1_code_search]. *)
Definition code_search_body (issue : json) (dataset : list json) : result (list json) :=
  marked <- Py.contains "pull_request" issue ;;
  if negb marked then
    id <- Py.getitem issue "id" ;;
    title <- Py.getitem issue "title" ;;
    body <- Py.getitem issue "body" ;;
    html_url <- Py.getitem issue "html_url" ;;
    Ok (dataset ++ [JDict [("task", JStr "code_search"); ("id", id); ("query", title);
                           ("body", body); ("url", html_url)]])
  else Ok dataset.

(** [[label['name'] for label in labels]] *)
Fixpoint label_names (labels : list json) : result (list json) :=
  match labels with
  | [] => Ok []
  | label :: rest =>
      name <- Py.getitem label "name" ;;
      names <- label_names rest ;;
      Ok (name :: names)
  end.

(** The body of [for pr in pull_requests] of [task_3_bug_classification]. *)
Definition bug_classification_body (pr : json) (dataset : list json) : result (list json) :=
  id <- Py.getitem pr "id" ;;
  number <- Py.getitem pr "number" ;;
  title <- Py.getitem pr "title" ;;
  labels <- Py.getitem pr "labels" ;;
  labels <- Py.iter labels ;;
  names <- label_names labels ;;
  diff_url <- Py.getitem pr "diff_url" ;;
  state <- Py.getitem pr "state" ;;
  Ok (dataset ++ [JDict [("task", JStr "bug_classification"); ("id", id); ("pr_number", number);
                         ("title", title); ("labels", JList names);
                         ("diff_url", diff_url); ("state", state)]]).

(** [fix_keywords.search(commit_message)]: the subject must be a string. *)
Definition search_message (commit_message : json) : result bool :=
  match commit_message with
  | JStr s => Ok (Re.search fix_keywords s)
  | _ => Raise TypeError
  end.

(** The two lists [task_2_and_4_commits] fills. *)
Record commit_datasets : Type :=
  { dataset_code_repair : list json; dataset_commit_gen : list json }.

(** The body of [for commit in commits] of [task_2_and_4_commits]. *)
Definition commit_body (commit : json) (ds : commit_datasets) : result commit_datasets :=
  commit_sha <- Py.getitem commit "sha" ;;
  inner <- Py.getitem commit "commit" ;;
  commit_message <- Py.getitem inner "message" ;;
  parents <- Py.getitem commit "parents" ;;
  n <- Py.len parents ;;
  if (1 <? n)%nat then Ok ds
  else
    inner <- Py.get commit "commit" (JDict []) ;;
    author <- Py.get inner "author" (JDict []) ;;
    name <- Py.get author "name" JNull ;;
    let commit_data := [("sha", commit_sha); ("message", commit_message); ("author", name)] in
    let gen := dataset_commit_gen ds ++ [JDict (("task", JStr "commit_gen") :: commit_data)] in
    found <- search_message commit_message ;;
    if found
    then Ok {| dataset_code_repair :=
                 dataset_code_repair ds ++ [JDict (("task", JStr "code_repair") :: commit_data)];
               dataset_commit_gen := gen |}
    else Ok {| dataset_code_repair := dataset_code_repair ds; dataset_commit_gen := gen |}.

Section Tasks.

Variable GITHUB_TOKEN : option string.

(** What a task has done after a finite list of responses: the trace of
    its fetch, and either the files it leaves, the exception that ended
    it, or its fetch still running. *)
Definition task_run : Type := list event * status (result (gmap string string)).

Definition task_1_code_search (max_items : option Z) (resps : list response)
    (fs : gmap string string) : task_run :=
  match fetch_paginated_data GITHUB_TOKEN (BASE_URL +:+ "/issues") max_items resps with
  | (tr, Pending st) => (tr, Pending st)
  | (tr, Returned None) => (tr, Returned (Ok fs))
  | (tr, Returned (Some issues)) =>
      (tr, Returned (dataset <- Py.for_each issues code_search_body [] ;;
                     Ok (save_to_jsonl "task_1_code_search.jsonl" dataset fs)))
  end.

Definition task_3_bug_classification (max_items : option Z) (resps : list response)
    (fs : gmap string string) : task_run :=
  match fetch_paginated_data GITHUB_TOKEN (BASE_URL +:+ "/pulls") max_items resps with
  | (tr, Pending st) => (tr, Pending st)
  | (tr, Returned None) => (tr, Returned (Ok fs))
  | (tr, Returned (Some pull_requests)) =>
      (tr, Returned (dataset <- Py.for_each pull_requests bug_classification_body [] ;;
                     Ok (save_to_jsonl "task_3_bug_classification.jsonl" dataset fs)))
  end.

Definition task_2_and_4_commits (max_items : option Z) (resps : list response)
    (fs : gmap string string) : task_run :=
  match fetch_paginated_data GITHUB_TOKEN (BASE_URL +:+ "/commits") max_items resps with
  | (tr, Pending st) => (tr, Pending st)
  | (tr, Returned None) => (tr, Returned (Ok fs))
  | (tr, Returned (Some commits)) =>
      (tr, Returned
             (ds <- Py.for_each commits commit_body
                      {| dataset_code_repair := []; dataset_commit_gen := [] |} ;;
              Ok (save_to_jsonl "task_2_code_repair.jsonl" (dataset_code_repair ds)
                    (save_to_jsonl "task_4_commit_gen.jsonl" (dataset_commit_gen ds) fs))))
  end.

End Tasks.

(** ** What the extractors are expected to produce *)

(** [v[k]] where the key is known to be there. *)
Definition field (v : json) (k : string) : json :=
  match Py.getitem v k with
  | Ok x => x
  | Raise _ => JNull
  end.

(** An issue carries the pull-request marker. *)
Definition marked (issue : json) : bool :=
  match Py.contains "pull_request" issue with
  | Ok b => b
  | Raise _ => false
  end.

Definition code_search_record (issue : json) : json :=
  JDict [("task", JStr "code_search"); ("id", field issue "id"); ("query", field issue "title");
         ("body", field issue "body"); ("url", field issue "html_url")].

(** [len(commit['parents'])], when it has a value. *)
Definition parents_count (commit : json) : option nat :=
  match Py.getitem commit "parents" with
  | Ok parents => match Py.len parents with Ok n => Some n | Raise _ => None end
  | Raise _ => None
  end.

(** A merge commit: more than one parent. *)
Definition is_merge (commit : json) : bool :=
  match parents_count commit with
  | Some n => (1 <? n)%nat
  | None => false
  end.

(** [commit.get('commit', {}).get('author', {}).get('name')], when it has a
    value. *)
Definition author_name (commit : json) : json :=
  match (inner <- Py.get commit "commit" (JDict []) ;;
         author <- Py.get inner "author" (JDict []) ;;
         Py.get author "name" JNull) with
  | Ok x => x
  | Raise _ => JNull
  end.

Definition commit_message (commit : json) : json := field (field commit "commit") "message".

Definition commit_record (task : string) (commit : json) : json :=
  JDict [("task", JStr task); ("sha", field commit "sha");
         ("message", commit_message commit); ("author", author_name commit)].

(** The message of the commit is a string in which [fix_keywords] is found. *)
Definition message_matches (commit : json) : bool :=
  match commit_message commit with
  | JStr s => Re.search fix_keywords s
  | _ => false
  end.

(** The last character of a string. *)
Fixpoint last_char (s : string) : option ascii :=
  match s with
  | EmptyString => None
  | String c EmptyString => Some c
  | String _ t => last_char t
  end.

(** The character before the end of [s], [prev] being the one before [s]. *)
Definition last_or (prev : option ascii) (s : string) : option ascii :=
  match last_char s with
  | Some c => Some c
  | None => prev
  end.

(** [kw] stands in [msg] as a whole word, letter case aside: some stretch of
    [msg] is [kw] up to case, with no word character right before it and
    none right after it. *)
Definition whole_word (kw msg : string) : Prop :=
  exists pre w post : string,
    msg = pre +:+ w +:+ post
    /\ PyStr.lower w = kw
    /\ Re.word_opt (last_char pre) = false
    /\ Re.word_opt (Re.head post) = false.

(** The words the pattern of the code spells out. *)
Definition code_keywords : list string :=
  ["fix"; "fixes"; "fixed"; "bug"; "patch"; "correct"; "corrects"; "corrected"].

(** The words the specification lists. *)
Definition spec_keywords : list string :=
  ["fix"; "fixes"; "fixed"; "bug"; "patch"; "patched"; "correct"; "corrects"; "corrected"].

(** [strip kw s prev]: [s] starts with [kw] up to letter case; the result
    is the last character read ([prev] when [kw] is empty) and what is left
    of [s]. *)
Fixpoint strip (kw s : string) (prev : option ascii) : option (option ascii * string) :=
  match kw with
  | EmptyString => Some (prev, s)
  | String p kw' =>
      match s with
      | EmptyString => None
      | String a t => if Re.ci_eq p a then strip kw' t (Some a) else None
      end
  end.

(** [kw] is matched at the start of [s], with a word boundary on each side. *)
Definition word_at (kw : string) (prev : option ascii) (s : string) : bool :=
  match strip kw s prev with
  | Some (p, t) => Re.boundary prev s && Re.boundary p t
  | None => false
  end.

(** A raw commit as the API gives it, reduced to the fields the program
    reads. *)
Definition raw_commit (sha msg : string) (author : option json) (parents : list json) : json :=
  JDict [("sha", JStr sha);
         ("commit", JDict (("message", JStr msg)
                           :: match author with Some a => [("author", a)] | None => [] end));
         ("parents", JList parents)].

(** A keyword: in lower case, with a word character at each end. *)
Definition keyword (kw : string) : Prop :=
  PyStr.lower kw = kw
  /\ Re.word_opt (Re.head kw) = true
  /\ Re.word_opt (last_char kw) = true.

(** ** Reading JSON lines back *)

(** A reader for the JSON grammar (RFC 8259) on the values of [json]: white
    space between tokens, the three literals, integers without leading zero,
    strings with their escapes, arrays and objects. A number with a fraction
    or an exponent, and an escape [\uXXXX] of a code point above 255, have no
    value in [json] and are refused. *)
Module JsonRead.

Definition is_ws (c : ascii) : bool :=
  let n := PyStr.code c in ((n =? 32) || (n =? 9) || (n =? 10) || (n =? 13))%N.

Fixpoint skip_ws (s : string) : string :=
  match s with
  | EmptyString => EmptyString
  | String c t => if is_ws c then skip_ws t else s
  end.

Definition digit (c : ascii) : option (Decimal.uint -> Decimal.uint) :=
  let n := PyStr.code c in
  if (n =? 48)%N then Some Decimal.D0
  else if (n =? 49)%N then Some Decimal.D1
  else if (n =? 50)%N then Some Decimal.D2
  else if (n =? 51)%N then Some Decimal.D3
  else if (n =? 52)%N then Some Decimal.D4
  else if (n =? 53)%N then Some Decimal.D5
  else if (n =? 54)%N then Some Decimal.D6
  else if (n =? 55)%N then Some Decimal.D7
  else if (n =? 56)%N then Some Decimal.D8
  else if (n =? 57)%N then Some Decimal.D9
  else None.

Fixpoint read_digits (s : string) : Decimal.uint * string :=
  match s with
  | EmptyString => (Decimal.Nil, EmptyString)
  | String c t =>
      match digit c with
      | Some d => let (u, r) := read_digits t in (d u, r)
      | None => (Decimal.Nil, s)
      end
  end.

(** The character after the digits opens a fraction or an exponent. *)
Definition not_integer (r : string) : bool :=
  match r with
  | EmptyString => false
  | String c _ => let n := PyStr.code c in ((n =? 46) || (n =? 101) || (n =? 69))%N
  end.

Definition read_int (s : string) : option (Z * string) :=
  let (negative, t) :=
    match s with
    | EmptyString => (false, s)
    | String c t => if (PyStr.code c =? 45)%N then (true, t) else (false, s)
    end in
  let (u, r) := read_digits t in
  match u with
  | Decimal.Nil => None
  | Decimal.D0 (Decimal.D0 _ | Decimal.D1 _ | Decimal.D2 _ | Decimal.D3 _ | Decimal.D4 _
               | Decimal.D5 _ | Decimal.D6 _ | Decimal.D7 _ | Decimal.D8 _ | Decimal.D9 _) =>
      None
  | _ =>
      if not_integer r then None
      else Some (Z.of_int (if negative then Decimal.Neg u else Decimal.Pos u), r)
  end.

Definition hex_val (c : ascii) : option N :=
  let n := PyStr.code c in
  if ((48 <=? n) && (n <=? 57))%N then Some (n - 48)%N
  else if ((97 <=? n) && (n <=? 102))%N then Some (n - 87)%N
  else if ((65 <=? n) && (n <=? 70))%N then Some (n - 55)%N
  else None.

Definition hex4 (h1 h2 h3 h4 : ascii) : option N :=
  match hex_val h1, hex_val h2, hex_val h3, hex_val h4 with
  | Some a, Some b, Some c, Some d => Some (((a * 16 + b) * 16 + c) * 16 + d)%N
  | _, _, _, _ => None
  end.

(** The character a two-character escape stands for. *)
Definition unescape (e : ascii) : option ascii :=
  let n := PyStr.code e in
  if (n =? 34)%N then Some e
  else if (n =? 92)%N then Some e
  else if (n =? 47)%N then Some e
  else if (n =? 98)%N then Some (ascii_of_N 8)
  else if (n =? 102)%N then Some (ascii_of_N 12)
  else if (n =? 110)%N then Some (ascii_of_N 10)
  else if (n =? 114)%N then Some (ascii_of_N 13)
  else if (n =? 116)%N then Some (ascii_of_N 9)
  else None.

Definition cons_char (c : ascii) (r : option (string * string)) : option (string * string) :=
  match r with
  | Some (s, t) => Some (String c s, t)
  | None => None
  end.

(** The characters of a string, from after its opening quote to its closing
    quote. *)
Fixpoint read_chars (s : string) : option (string * string) :=
  match s with
  | EmptyString => None
  | String c t =>
      if (PyStr.code c =? 34)%N then Some (EmptyString, t)
      else if (PyStr.code c =? 92)%N then
        match t with
        | EmptyString => None
        | String e t1 =>
            match unescape e with
            | Some x => cons_char x (read_chars t1)
            | None =>
                if (PyStr.code e =? 117)%N then
                  match t1 with
                  | String h1 (String h2 (String h3 (String h4 t2))) =>
                      match hex4 h1 h2 h3 h4 with
                      | Some n =>
                          if (n <? 256)%N then cons_char (ascii_of_N n) (read_chars t2)
                          else None
                      | None => None
                      end
                  | _ => None
                  end
                else None
            end
        end
      else if (PyStr.code c <? 32)%N then None
      else cons_char c (read_chars t)
  end.

(** [s] starts with the characters of [lit]; what follows them. *)
Fixpoint expect (lit s : string) : option string :=
  match lit with
  | EmptyString => Some s
  | String c lit' =>
      match s with
      | EmptyString => None
      | String a t => if Ascii.eqb a c then expect lit' t else None
      end
  end.

Definition literal (lit : string) (v : json) (s : string) : option (json * string) :=
  match expect lit s with
  | Some r => Some (v, r)
  | None => None
  end.

Fixpoint read_value (fuel : nat) (s : string) : option (json * string) :=
  match fuel with
  | O => None
  | S fuel =>
      match skip_ws s with
      | EmptyString => None
      | String c t =>
          let n := PyStr.code c in
          if (n =? 110)%N then literal "ull" JNull t
          else if (n =? 116)%N then literal "rue" (JBool true) t
          else if (n =? 102)%N then literal "alse" (JBool false) t
          else if (n =? 34)%N then
            match read_chars t with
            | Some (x, r) => Some (JStr x, r)
            | None => None
            end
          else if (n =? 91)%N then
            match skip_ws t with
            | EmptyString => None
            | String c' r =>
                if (PyStr.code c' =? 93)%N then Some (JList [], r)
                else match read_elements fuel t with
                     | Some (l, r') => Some (JList l, r')
                     | None => None
                     end
            end
          else if (n =? 123)%N then
            match skip_ws t with
            | EmptyString => None
            | String c' r =>
                if (PyStr.code c' =? 125)%N then Some (JDict [], r)
                else match read_members fuel t with
                     | Some (d, r') => Some (JDict d, r')
                     | None => None
                     end
            end
          else
            match read_int (String c t) with
            | Some (z, r) => Some (JInt z, r)
            | None => None
            end
      end
  end

with read_elements (fuel : nat) (s : string) : option (list json * string) :=
  match fuel with
  | O => None
  | S fuel =>
      match read_value fuel s with
      | None => None
      | Some (v, r) =>
          match skip_ws r with
          | EmptyString => None
          | String c r' =>
              if (PyStr.code c =? 44)%N then
                match read_elements fuel r' with
                | Some (l, r'') => Some (v :: l, r'')
                | None => None
                end
              else if (PyStr.code c =? 93)%N then Some ([v], r')
              else None
          end
      end
  end

with read_members (fuel : nat) (s : string) : option (list (string * json) * string) :=
  match fuel with
  | O => None
  | S fuel =>
      match skip_ws s with
      | EmptyString => None
      | String q t =>
          if (PyStr.code q =? 34)%N then
            match read_chars t with
            | None => None
            | Some (k, r) =>
                match skip_ws r with
                | EmptyString => None
                | String c r1 =>
                    if (PyStr.code c =? 58)%N then
                      match read_value fuel r1 with
                      | None => None
                      | Some (v, r2) =>
                          match skip_ws r2 with
                          | EmptyString => None
                          | String c2 r3 =>
                              if (PyStr.code c2 =? 44)%N then
                                match read_members fuel r3 with
                                | Some (d, r4) => Some ((k, v) :: d, r4)
                                | None => None
                                end
                              else if (PyStr.code c2 =? 125)%N then Some ([(k, v)], r3)
                              else None
                          end
                      end
                    else None
                end
            end
          else None
      end
  end.

(** The value of a JSON text, when it is one: a value, then white space
    only. *)
Definition loads (s : string) : option json :=
  match read_value (S (String.length s)) s with
  | Some (v, r) => match skip_ws r with EmptyString => Some v | String _ _ => None end
  | None => None
  end.

(** The lines of a text: what stands before each newline, and what is left
    after the last one when that is not empty. *)
Fixpoint lines (s : string) : list string :=
  match s with
  | EmptyString => []
  | String c t =>
      if Ascii.eqb c Json.NL then EmptyString :: lines t
      else match lines t with
           | [] => [String c EmptyString]
           | l :: ls => String c l :: ls
           end
  end.

(** Every element decoded, in order; nothing when one has no value. *)
Fixpoint load_all (ls : list string) : option (list json) :=
  match ls with
  | [] => Some []
  | l :: ls' =>
      match loads l, load_all ls' with
      | Some v, Some vs => Some (v :: vs)
      | _, _ => None
      end
  end.

(** The text after a number does not go on with a digit, a fraction or an
    exponent. *)
Definition ends_number (r : string) : bool :=
  match r with
  | EmptyString => true
  | String c _ => match digit c with Some _ => false | None => negb (not_integer r) end
  end.

(** The records of a JSON-lines text. *)
Definition read_jsonl (content : string) : option (list json) := load_all (lines content).

End JsonRead.

(** The items [a], [a+1], ... of a page of [n] items. *)
Definition numbered (a n : nat) : list json := map (fun i => JInt (Z.of_nat i)) (seq a n).

(** The character [c] occurs in [s]. *)
Fixpoint has_char (c : ascii) (s : string) : bool :=
  match s with
  | EmptyString => false
  | String a t => Ascii.eqb a c || has_char c t
  end.

(** The text [save_to_jsonl] writes: each record on its line. *)
Fixpoint jsonl_text (data_list : list json) : string :=
  match data_list with
  | [] => EmptyString
  | item :: rest => Json.dumps item +:+ String Json.NL (jsonl_text rest)
  end.

(** What reading an encoded value back gives, with enough fuel for its
    text. *)
Definition reads_back (v : json) : Prop :=
  forall fuel s rest,
    JsonRead.skip_ws s = Json.dumps v +:+ rest ->
    JsonRead.ends_number rest = true ->
    String.length (Json.dumps v) <= fuel ->
    JsonRead.read_value fuel s = Some (v, rest).

(** ** The rest of the program: what a fetch has read, and the main workflow *)

(** The records a response adds to [all_items]. *)
Definition page_data (r : response) : list json :=
  match r with
  | Page data _ => data
  | RequestException _ => []
  end.

Definition is_page (r : response) : bool :=
  match r with
  | Page _ _ => true
  | RequestException _ => false
  end.

(** The number of calls of [requests.get] in a trace. *)
Fixpoint count_gets (tr : list event) : nat :=
  match tr with
  | [] => 0
  | EvGet _ _ _ :: tr' => S (count_gets tr')
  | EvSleep _ :: tr' => count_gets tr'
  end.

(** The requests and pauses of a call, the request a call still running
    stands at counted as its last one. *)
Definition whole_trace {A : Type} (url : string) (r : list event * status A) : list event :=
  match r with
  | (tr, Returned _) => tr
  | (tr, Pending st) => tr ++ [EvGet url ITEMS_PER_PAGE (page st)]
  end.

Definition has_cap (max_items : option Z) : bool :=
  match max_items with
  | Some _ => true
  | None => false
  end.

(** A trace that asks [url] for the pages in order from page [p], 100 items
    a page. After a request comes the end of the trace, or a pause of 1
    second followed by the request of the next page, or a pause of 3601
    seconds followed by the request of the same page. The trace may also end
    right after a pause of 1 second, but only when [capped]; it never ends
    after a pause of 3601 seconds. *)
Fixpoint paced (url : string) (capped : bool) (p : nat) (tr : list event) : bool :=
  match tr with
  | [] => true
  | EvSleep _ :: _ => false
  | EvGet u per_page q :: tr1 =>
      String.eqb u url && Nat.eqb per_page 100 && Nat.eqb q p
      && match tr1 with
         | [] => true
         | EvGet _ _ _ :: _ => false
         | EvSleep s :: tr2 =>
             (Nat.eqb s 1
              && match tr2 with [] => capped | _ :: _ => true end
              && paced url capped (S p) tr2)
             || (Nat.eqb s 3601
                 && match tr2 with [] => false | _ :: _ => true end
                 && paced url capped p tr2)
         end
  end.

(** An issue the loop of [task_1_code_search] gets through: it has the
    pull-request marker, or it has none and has the four keys read. *)
Definition issue_ok (issue : json) : Prop :=
  Py.contains "pull_request" issue = Ok true
  \/ (Py.contains "pull_request" issue = Ok false
      /\ exists id title body html_url,
          Py.getitem issue "id" = Ok id /\ Py.getitem issue "title" = Ok title
          /\ Py.getitem issue "body" = Ok body /\ Py.getitem issue "html_url" = Ok html_url).

(** A commit the loop of [task_2_and_4_commits] gets through: sha, message
    and parents can be read; and with at most one parent, the message is a
    string and the author, when the nested commit has one, is an object. *)
Definition commit_ok (commit : json) : Prop :=
  exists sha inner msg parents n,
    Py.getitem commit "sha" = Ok sha
    /\ Py.getitem commit "commit" = Ok inner
    /\ Py.getitem inner "message" = Ok msg
    /\ Py.getitem commit "parents" = Ok parents
    /\ Py.len parents = Ok n
    /\ (1 < n
        \/ (n <= 1
            /\ (exists s, msg = JStr s)
            /\ match Py.getitem inner "author" with
               | Ok author => exists d, author = JDict d
               | Raise _ => True
               end)).

(** The names of the labels of a pull request, when they can be read. *)
Definition pr_label_names (pr : json) : list json :=
  match (labels <- Py.getitem pr "labels" ;; labels <- Py.iter labels ;; label_names labels) with
  | Ok names => names
  | Raise _ => []
  end.

Definition pr_record (pr : json) : json :=
  JDict [("task", JStr "bug_classification"); ("id", field pr "id");
         ("pr_number", field pr "number"); ("title", field pr "title");
         ("labels", JList (pr_label_names pr));
         ("diff_url", field pr "diff_url"); ("state", field pr "state")].

(** Every character of [s] is a word character. *)
Fixpoint all_word (s : string) : bool :=
  match s with
  | EmptyString => true
  | String c t => Re.is_word c && all_word t
  end.

(** [MAX_ITEMS_PER_TASK = None] *)
Definition MAX_ITEMS_PER_TASK : option Z := None.

(** One task after another: an exception is not caught, so it ends the
    script; a fetch that is still running keeps the script there. *)
Definition and_then (r : task_run) (next : gmap string string -> task_run) : task_run :=
  match r with
  | (tr, Returned (Ok fs)) => emit tr (next fs)
  | (tr, Returned (Raise e)) => (tr, Returned (Raise e))
  | (tr, Pending st) => (tr, Pending st)
  end.

(** The block under [if __name__ == "__main__"]; each task has the
    responses to its own requests. *)
Definition main (GITHUB_TOKEN : option string) (issues pulls commits : list response)
    (fs : gmap string string) : task_run :=
  if PyStr.truthy GITHUB_TOKEN then
    and_then (task_1_code_search GITHUB_TOKEN MAX_ITEMS_PER_TASK issues fs) (fun fs1 =>
    and_then (task_3_bug_classification GITHUB_TOKEN MAX_ITEMS_PER_TASK pulls fs1) (fun fs2 =>
    task_2_and_4_commits GITHUB_TOKEN MAX_ITEMS_PER_TASK commits fs2))
  else ([], Returned (Ok fs)).

(** The seconds a trace spends in [time.sleep]. *)
Fixpoint total_sleep (tr : list event) : nat :=
  match tr with
  | [] => 0
  | EvSleep s :: tr' => s + total_sleep tr'
  | EvGet _ _ _ :: tr' => total_sleep tr'
  end.

(** The files on disk when the main workflow stops, however it stops. A task
    writes only after its loop, so a task that ends with an exception, or
    whose fetch is still running, has written nothing; the files of the tasks
    before it stay. *)
Definition main_disk (GITHUB_TOKEN : option string) (issues pulls commits : list response)
    (fs : gmap string string) : gmap string string :=
  if PyStr.truthy GITHUB_TOKEN then
    match task_1_code_search GITHUB_TOKEN MAX_ITEMS_PER_TASK issues fs with
    | (_, Returned (Ok fs1)) =>
        match task_3_bug_classification GITHUB_TOKEN MAX_ITEMS_PER_TASK pulls fs1 with
        | (_, Returned (Ok fs2)) =>
            match task_2_and_4_commits GITHUB_TOKEN MAX_ITEMS_PER_TASK commits fs2 with
            | (_, Returned (Ok fs3)) => fs3
            | _ => fs2
            end
        | _ => fs1
        end
    | _ => fs
    end
  else fs.

(** * Properties *)

(** ** The fetcher *)

Section FetcherFacts.

Variable GITHUB_TOKEN : option string.
Variable url : string.
Variable max_items : option Z.

#[local] Abbreviation loop := (while_true GITHUB_TOKEN url max_items).
#[local] Abbreviation fetch := (fetch_paginated_data GITHUB_TOKEN url max_items).

Lemma emit_nil {A : Type} (r : list event * A) : emit [] r = r.
Proof. destruct r; reflexivity. Qed.

Lemma emit_emit {A : Type} (e1 e2 : list event) (r : list event * A) :
  emit e1 (emit e2 r) = emit (e1 ++ e2) r.
Proof. unfold emit; simpl. now rewrite app_assoc. Qed.

(** A loop that stands at a request goes on from there with the responses
    that follow. *)
Lemma while_true_app (pre more : list response) :
  forall st tr st',
    loop pre st = (tr, Pending st') ->
    loop (pre ++ more) st = emit tr (loop more st').
Proof.
  induction pre as [|r pre IH]; intros st tr st' H; simpl in *.
  - destruct (before_request GITHUB_TOKEN max_items st) eqn:B; [discriminate|].
    injection H as <- <-. rewrite emit_nil.
    destruct more; simpl; now rewrite B.
  - destruct (before_request GITHUB_TOKEN max_items st) eqn:B; [discriminate|].
    destruct (after_request st r) as [evs [st1| |]] eqn:E; try discriminate.
    destruct (loop pre st1) as [tr1 s1] eqn:L. unfold emit in H; simpl in H.
    injection H as <- ->. rewrite (IH _ _ _ L), emit_emit. reflexivity.
Qed.

(** A pending loop has passed the cap test and the token test. *)
Lemma pending_before_request (pre : list response) :
  forall st tr st',
    loop pre st = (tr, Pending st') ->
    before_request GITHUB_TOKEN max_items st' = None.
Proof.
  induction pre as [|r pre IH]; intros st tr st' H; simpl in *.
  - destruct (before_request GITHUB_TOKEN max_items st) eqn:B; [discriminate|].
    now injection H as <- <-.
  - destruct (before_request GITHUB_TOKEN max_items st) eqn:B; [discriminate|].
    destruct (after_request st r) as [evs [st1| |]] eqn:E; try discriminate.
    destruct (loop pre st1) as [tr1 s1] eqn:L. unfold emit in H; simpl in H.
    injection H as <- ->. eauto.
Qed.

Lemma fetch_pending (pre : list response) tr st :
  fetch pre = (tr, Pending st) <->
  loop pre {| all_items := []; page := 1 |} = (tr, Pending st).
Proof.
  unfold fetch_paginated_data.
  destruct (loop pre _) as [tr' [f|st']]; split; intros H; try discriminate;
  injection H as -> ->; reflexivity.
Qed.

(** One more response, answering the request a pending fetch stands at. *)
Lemma fetch_step (pre : list response) (r : response) (rest : list response) tr st :
  fetch pre = (tr, Pending st) ->
  fetch (pre ++ r :: rest) =
    match after_request st r with
    | (evs, Continue st') =>
        match loop rest st' with
        | (tr', Returned f) =>
            (tr ++ EvGet url ITEMS_PER_PAGE (page st) :: evs ++ tr',
             Returned (after_loop max_items f))
        | (tr', Pending st'') =>
            (tr ++ EvGet url ITEMS_PER_PAGE (page st) :: evs ++ tr', Pending st'')
        end
    | (evs, f) =>
        (tr ++ EvGet url ITEMS_PER_PAGE (page st) :: evs, Returned (after_loop max_items f))
    end.
Proof.
  intros H. apply fetch_pending in H.
  pose proof (pending_before_request _ _ _ _ H) as B.
  unfold fetch_paginated_data. rewrite (while_true_app _ (r :: rest) _ _ _ H).
  simpl. rewrite B.
  destruct (after_request st r) as [evs [st1| |]]; try reflexivity.
  destruct (loop rest st1) as [tr' [f|st2]]; reflexivity.
Qed.

(** An empty page, or a page without the next link, ends a fetch that
    stands at a request. *)
Lemma fetch_last_page (pre : list response) (data : list json) (links_next : bool)
    (rest : list response) tr st :
  fetch pre = (tr, Pending st) ->
  data = [] \/ links_next = false ->
  fetch (pre ++ Page data links_next :: rest)
  = (tr ++ [EvGet url ITEMS_PER_PAGE (page st)],
     Returned (after_loop max_items
                 (Break {| all_items := all_items st ++ data; page := page st |}))).
Proof.
  intros H D. rewrite (fetch_step _ _ rest _ _ H). cbn [after_request].
  destruct data as [|x data].
  - rewrite app_nil_r. destruct st; reflexivity.
  - destruct D as [D| ->]; [discriminate | reflexivity].
Qed.

(** The loop returns once it has had as many answers other than rate-limit
    rejections as the cap leaves room for. *)
Lemma while_true_returns (N : Z) (resps : list response) :
  max_items = Some N ->
  forall st,
    (N - Z.of_nat (length (all_items st))
     <= Z.of_nat (length (List.filter (fun r => negb (rate_limited r)) resps)))%Z ->
    exists tr f, loop resps st = (tr, Returned f).
Proof.
  intros ->. induction resps as [|r rest IH]; intros st H; simpl in *.
  - unfold before_request, cap_reached.
    destruct (Z.leb_spec N (Z.of_nat (length (all_items st)))); [eauto | lia].
  - destruct (before_request GITHUB_TOKEN (Some N) st) eqn:B; [eauto|].
    destruct (after_request st r) as [evs [st1| |]] eqn:E; eauto.
    assert (H1 : (N - Z.of_nat (length (all_items st1))
                  <= Z.of_nat (length (List.filter (fun r => negb (rate_limited r)) rest)))%Z).
    { destruct r as [data links|text]; cbn [List.filter rate_limited negb length] in H;
        cbn [after_request] in E.
      - destruct data as [|x data]; [discriminate|].
        destruct links; cbn [negb] in E; [|discriminate].
        injection E as _ <-. cbn [all_items]. rewrite length_app. cbn [length]. lia.
      - destruct (bad_credentials text); [discriminate|].
        destruct (rate_limit_exceeded text); [|discriminate].
        injection E as _ <-. exact H. }
    destruct (IH _ H1) as (tr & f & ->). unfold emit; simpl. eauto.
Qed.

End FetcherFacts.

Lemma length_slice_to {A : Type} (l : list A) (n : Z) :
  (0 <= n)%Z -> slice_to l n = firstn (Z.to_nat n) l.
Proof. intros H. unfold slice_to. destruct (Z.leb_spec 0 n); [reflexivity | lia]. Qed.

(** C1. With a cap [N >= 0] the fetcher returns at most [N] records, whatever
    the responses: the list it returns is the accumulated list cut to its
    first [N] elements; a pass of the loop that finds [N] records or more
    accumulated ends the loop before any request; and the fetcher does
    return once the responses hold [N] answers other than rate-limit
    rejections. *)
Theorem fetch_respects_cap (GITHUB_TOKEN : option string) (url : string) (N : Z)
    (resps : list response) :
  (0 <= N)%Z ->
  (forall tr items,
      fetch_paginated_data GITHUB_TOKEN url (Some N) resps = (tr, Returned (Some items)) ->
      (Z.of_nat (length items) <= N)%Z
      /\ exists st,
          while_true GITHUB_TOKEN url (Some N) resps {| all_items := []; page := 1 |}
          = (tr, Returned (Break st))
          /\ items = firstn (Z.to_nat N) (all_items st)
          /\ ((N <= Z.of_nat (length (all_items st)))%Z -> Z.of_nat (length items) = N))
  /\ (forall st more,
         (N <= Z.of_nat (length (all_items st)))%Z ->
         while_true GITHUB_TOKEN url (Some N) more st = ([], Returned (Break st)))
  /\ ((N <= Z.of_nat (length (List.filter (fun r => negb (rate_limited r)) resps)))%Z ->
      exists tr r, fetch_paginated_data GITHUB_TOKEN url (Some N) resps = (tr, Returned r)).
Proof.
  intros HN. split; [|split].
  - intros tr items H. unfold fetch_paginated_data in H.
    destruct (while_true _ _ _ _ _) as [tr' [f|st']] eqn:L; [|discriminate].
    injection H as <- H.
    assert (C : forall st, (exists tr0 rs st0,
                   while_true GITHUB_TOKEN url (Some N) rs st0 = (tr0, Returned (Continue st)))
                 -> False).
    { intros st (tr0 & rs & st0 & Hc). revert tr0 st0 Hc.
      induction rs as [|r rs IH]; intros tr0 st0 Hc; simpl in Hc.
      - destruct (before_request _ _ _) as [f0|] eqn:B; [|discriminate].
        unfold before_request in B.
        destruct (cap_reached _ _); [congruence|].
        destruct (negb _); congruence.
      - destruct (before_request _ _ _) as [f0|] eqn:B.
        + unfold before_request in B.
          destruct (cap_reached _ _); [congruence|].
          destruct (negb _); congruence.
        + destruct (after_request st0 r) as [evs [st1| |]] eqn:E; try congruence.
          destruct (while_true _ _ _ rs st1) as [tr1 s1] eqn:L1.
          unfold emit in Hc; simpl in Hc. injection Hc as _ ->. eauto. }
    destruct f as [st|st|]; simpl in H; [exfalso; eauto| |discriminate].
    injection H as <-. rewrite length_slice_to by exact HN.
    split; [rewrite length_firstn; lia|].
    exists st. repeat split. intros Hlen. rewrite length_firstn. lia.
  - intros st more H.
    assert (B : before_request GITHUB_TOKEN (Some N) st = Some (Break st)).
    { unfold before_request, cap_reached.
      destruct (Z.leb_spec N (Z.of_nat (length (all_items st)))); [reflexivity | lia]. }
    destruct more; simpl; now rewrite B.
  - intros H.
    destruct (while_true_returns GITHUB_TOKEN url (Some N) N resps eq_refl
                {| all_items := []; page := 1 |}) as (tr & f & L).
    { simpl. lia. }
    unfold fetch_paginated_data. rewrite L. eauto.
Qed.

Lemma fetch_respects_cap_witness :
  (0 <= 2)%Z
  /\ exists tr r,
      fetch_paginated_data (Some "t") "u" (Some 2%Z)
        [Page [JInt 1; JInt 2; JInt 3] true; Page [JInt 4] false] = (tr, Returned r).
Proof.
  split; [lia|].
  apply (fetch_respects_cap (Some "t") "u" 2
           [Page [JInt 1; JInt 2; JInt 3] true; Page [JInt 4] false]);
    [lia | vm_compute; discriminate].
Defined.

(** C5. A fetch that stands at a request and is answered by an empty page, or
    by a page without the next link (empty or not), returns at that very
    response: its trace ends with that one request, and the responses that
    follow are not asked for. *)
Theorem pagination_ends (GITHUB_TOKEN : option string) (url : string) (max_items : option Z)
    (pre : list response) (data : list json) (links_next : bool) (rest : list response)
    (tr : list event) (st : loop_state) :
  fetch_paginated_data GITHUB_TOKEN url max_items pre = (tr, Pending st) ->
  data = [] \/ links_next = false ->
  fetch_paginated_data GITHUB_TOKEN url max_items (pre ++ Page data links_next :: rest)
  = (tr ++ [EvGet url ITEMS_PER_PAGE (page st)],
     Returned (after_loop max_items
                 (Break {| all_items := all_items st ++ data; page := page st |}))).
Proof. apply fetch_last_page. Qed.

Lemma pagination_ends_witness :
  fetch_paginated_data (Some "t") "u" None
    ([Page [JInt 1; JInt 2] true] ++ Page [JInt 3] false :: [Page [JInt 4] true])
  = ([EvGet "u" 100 1; EvSleep 1] ++ [EvGet "u" ITEMS_PER_PAGE 2],
     Returned (Some [JInt 1; JInt 2; JInt 3])).
Proof.
  apply (pagination_ends (Some "t") "u" None [Page [JInt 1; JInt 2] true] [JInt 3] false
           [Page [JInt 4] true] [EvGet "u" 100 1; EvSleep 1]
           {| all_items := [JInt 1; JInt 2]; page := 2 |}).
  - reflexivity.
  - right; reflexivity.
Defined.

(** Two scenarios: a source of two pages, 100 items then 37 items and no
    next link, read without a cap and with a cap of 50. *)
Example two_pages_no_cap :
  fetch_paginated_data (Some "t") "u" None
    [Page (numbered 1 100) true; Page (numbered 101 37) false]
  = ([EvGet "u" 100 1; EvSleep 1; EvGet "u" 100 2], Returned (Some (numbered 1 137))).
Proof. reflexivity. Qed.

Example two_pages_cap_50 :
  fetch_paginated_data (Some "t") "u" (Some 50%Z)
    [Page (numbered 1 100) true; Page (numbered 101 37) false]
  = ([EvGet "u" 100 1; EvSleep 1], Returned (Some (numbered 1 50))).
Proof. reflexivity. Qed.

(** C4, as the code has it. A fetch that stands at a request and is answered
    [n] times in a row by a rejection whose text has the rate-limit substring
    and not the bad-credentials one sleeps 3601 seconds after each of them and
    stands at the same request again: same page number, same accumulated
    records. This holds for every [n]. *)
Theorem rate_limit_retries (GITHUB_TOKEN : option string) (url : string)
    (max_items : option Z) (pre : list response) (text : string) (n : nat)
    (tr : list event) (st : loop_state) :
  fetch_paginated_data GITHUB_TOKEN url max_items pre = (tr, Pending st) ->
  rate_limit_exceeded text = true ->
  bad_credentials text = false ->
  fetch_paginated_data GITHUB_TOKEN url max_items (pre ++ repeat (RequestException text) n)
  = (tr ++ retries url (page st) n, Pending st).
Proof.
  intros H R B. revert pre tr H. induction n as [|n IH]; intros pre tr H.
  - cbn [repeat retries]. now rewrite !app_nil_r.
  - cbn [repeat retries].
    assert (H1 : fetch_paginated_data GITHUB_TOKEN url max_items
                   (pre ++ [RequestException text])
                 = (tr ++ [EvGet url ITEMS_PER_PAGE (page st); EvSleep 3601], Pending st)).
    { rewrite (fetch_step _ _ _ _ _ [] _ _ H). cbn [after_request]. rewrite B, R.
      apply fetch_pending in H. apply pending_before_request in H.
      cbn [while_true]. rewrite H. reflexivity. }
    specialize (IH _ _ H1). rewrite <- !app_assoc in IH. exact IH.
Qed.

Lemma rate_limit_retries_witness :
  fetch_paginated_data (Some "t") "u" None
    ([Page [JInt 1] true] ++ repeat (RequestException "403 API rate limit exceeded") 3)
  = ([EvGet "u" 100 1; EvSleep 1] ++ retries "u" 2 3,
     Pending {| all_items := [JInt 1]; page := 2 |}).
Proof.
  apply (rate_limit_retries (Some "t") "u" None [Page [JInt 1] true]
           "403 API rate limit exceeded" 3 [EvGet "u" 100 1; EvSleep 1]
           {| all_items := [JInt 1]; page := 2 |}); reflexivity.
Defined.

(** C4, counterexample. The text of this rejection contains the rate-limit
    substring, and the fetch ends at it: one request, no sleep, no second
    request, because the bad-credentials test comes first. *)
Lemma rate_limit_text_with_bad_credentials :
  rate_limit_exceeded "Bad credentials (API rate limit exceeded)" = true
  /\ fetch_paginated_data (Some "t") "u" None
       [RequestException "Bad credentials (API rate limit exceeded)"; Page [JInt 1] false]
     = ([EvGet "u" 100 1], Returned (Some [])).
Proof. split; reflexivity. Qed.

(** What an authentication rejection does, whatever came before it. A fetch
    that stands at a request and is answered by a rejection whose text has
    the bad-credentials substring returns at once, without sleeping or asking
    again; what it returns is the list accumulated so far, cut to the cap
    when there is one: the very result an empty page gives at that point,
    and never [None]. Each of the three tasks then goes on with that list and
    writes. *)
Lemma bad_credentials_returns_partial (GITHUB_TOKEN : option string) (url : string)
    (max_items : option Z) (pre : list response) (text : string) (rest : list response)
    (tr : list event) (st : loop_state) :
  fetch_paginated_data GITHUB_TOKEN url max_items pre = (tr, Pending st) ->
  bad_credentials text = true ->
  exists items,
    after_loop max_items (Break st) = Some items
    /\ fetch_paginated_data GITHUB_TOKEN url max_items (pre ++ RequestException text :: rest)
       = (tr ++ [EvGet url ITEMS_PER_PAGE (page st)], Returned (Some items))
    /\ (forall links_next rest',
           fetch_paginated_data GITHUB_TOKEN url max_items (pre ++ Page [] links_next :: rest')
           = (tr ++ [EvGet url ITEMS_PER_PAGE (page st)], Returned (Some items)))
    /\ (url = BASE_URL +:+ "/issues" ->
        forall fs,
          task_1_code_search GITHUB_TOKEN max_items (pre ++ RequestException text :: rest) fs
          = (tr ++ [EvGet url ITEMS_PER_PAGE (page st)],
             Returned (dataset <- Py.for_each items code_search_body [] ;;
                       Ok (save_to_jsonl "task_1_code_search.jsonl" dataset fs))))
    /\ (url = BASE_URL +:+ "/pulls" ->
        forall fs,
          task_3_bug_classification GITHUB_TOKEN max_items
            (pre ++ RequestException text :: rest) fs
          = (tr ++ [EvGet url ITEMS_PER_PAGE (page st)],
             Returned (dataset <- Py.for_each items bug_classification_body [] ;;
                       Ok (save_to_jsonl "task_3_bug_classification.jsonl" dataset fs))))
    /\ (url = BASE_URL +:+ "/commits" ->
        forall fs,
          task_2_and_4_commits GITHUB_TOKEN max_items (pre ++ RequestException text :: rest) fs
          = (tr ++ [EvGet url ITEMS_PER_PAGE (page st)],
             Returned
               (ds <- Py.for_each items commit_body
                        {| dataset_code_repair := []; dataset_commit_gen := [] |} ;;
                Ok (save_to_jsonl "task_2_code_repair.jsonl" (dataset_code_repair ds)
                      (save_to_jsonl "task_4_commit_gen.jsonl" (dataset_commit_gen ds) fs))))).
Proof.
  intros H B.
  assert (E : fetch_paginated_data GITHUB_TOKEN url max_items
                (pre ++ RequestException text :: rest)
              = (tr ++ [EvGet url ITEMS_PER_PAGE (page st)],
                 Returned (after_loop max_items (Break st)))).
  { rewrite (fetch_step _ _ _ _ _ rest _ _ H). cbn [after_request]. now rewrite B. }
  destruct (after_loop max_items (Break st)) as [items|] eqn:A.
  2:{ cbn [after_loop] in A. destruct max_items; discriminate. }
  exists items. split; [reflexivity|]. split; [exact E|]. split; [|split; [|split]].
  - intros links_next rest'.
    rewrite (fetch_last_page _ _ _ _ [] links_next rest' _ _ H) by (left; reflexivity).
    rewrite app_nil_r. destruct st. cbn [all_items page] in *. now rewrite A.
  - intros -> fs. unfold task_1_code_search. rewrite E. reflexivity.
  - intros -> fs. unfold task_3_bug_classification. rewrite E. reflexivity.
  - intros -> fs. unfold task_2_and_4_commits. rewrite E. reflexivity.
Qed.

Lemma bad_credentials_returns_partial_witness :
  exists items,
    after_loop None (Break {| all_items := [JInt 1]; page := 2 |}) = Some items
    /\ fetch_paginated_data (Some "t") "u" None
         ([Page [JInt 1] true] ++ RequestException "401 Bad credentials" :: [])
       = ([EvGet "u" 100 1; EvSleep 1] ++ [EvGet "u" ITEMS_PER_PAGE 2], Returned (Some items)).
Proof.
  destruct (bad_credentials_returns_partial (Some "t") "u" None [Page [JInt 1] true]
              "401 Bad credentials" [] [EvGet "u" 100 1; EvSleep 1]
              {| all_items := [JInt 1]; page := 2 |} eq_refl eq_refl)
    as (items & A & E & _).
  exists items. split; [exact A | exact E].
Defined.

(** C2. The defect, at a failing input: a rejection with the bad-credentials
    text on the first request of a task. The fetch returns the empty list,
    which is what it returns when the first page is empty, and not [None];
    so each of the three tasks goes on and writes its file, with no record in
    it. The path that does what the comments of the code ask for (a failed
    token stops the task) is the one of the missing token: there the fetch
    returns [None] and the task writes nothing. *)
Lemma bad_credentials_is_not_distinguished :
  snd (fetch_paginated_data (Some "t") (BASE_URL +:+ "/issues") None
         [RequestException "401 Client Error: Bad credentials"])
  = Returned (Some [])
  /\ snd (fetch_paginated_data (Some "t") (BASE_URL +:+ "/issues") None [Page [] false])
     = Returned (Some [])
  /\ snd (task_1_code_search (Some "t") None
            [RequestException "401 Client Error: Bad credentials"] ∅)
     = Returned (Ok (save_to_jsonl "task_1_code_search.jsonl" [] ∅))
  /\ save_to_jsonl "task_1_code_search.jsonl" [] ∅ !! "task_1_code_search.jsonl"
     = Some EmptyString
  /\ snd (task_3_bug_classification (Some "t") None
            [RequestException "401 Client Error: Bad credentials"] ∅)
     = Returned (Ok (save_to_jsonl "task_3_bug_classification.jsonl" [] ∅))
  /\ snd (task_2_and_4_commits (Some "t") None
            [RequestException "401 Client Error: Bad credentials"] ∅)
     = Returned (Ok (save_to_jsonl "task_2_code_repair.jsonl" []
                       (save_to_jsonl "task_4_commit_gen.jsonl" [] ∅)))
  /\ fetch_paginated_data None (BASE_URL +:+ "/issues") None
       [RequestException "401 Client Error: Bad credentials"]
     = ([], Returned None)
  /\ task_1_code_search None None [RequestException "401 Client Error: Bad credentials"] ∅
     = ([], Returned (Ok ∅)).
Proof.
  split; [reflexivity|]. split; [reflexivity|]. split; [reflexivity|].
  split; [unfold save_to_jsonl; apply lookup_insert_eq|].
  repeat split.
Qed.

(** C8, as the code has it. With no token (unset or empty) and a cap that is
    unset or positive, the fetcher returns [None] with an empty trace, that
    is without any request, and each of the three tasks returns with an
    empty trace and the files as they were. *)
Theorem no_token_not_started (GITHUB_TOKEN : option string) (max_items : option Z)
    (resps : list response) :
  PyStr.truthy GITHUB_TOKEN = false ->
  (forall n, max_items = Some n -> (0 < n)%Z) ->
  (forall url, fetch_paginated_data GITHUB_TOKEN url max_items resps = ([], Returned None))
  /\ forall fs,
      task_1_code_search GITHUB_TOKEN max_items resps fs = ([], Returned (Ok fs))
      /\ task_3_bug_classification GITHUB_TOKEN max_items resps fs = ([], Returned (Ok fs))
      /\ task_2_and_4_commits GITHUB_TOKEN max_items resps fs = ([], Returned (Ok fs)).
Proof.
  intros T C.
  assert (F : forall url,
             fetch_paginated_data GITHUB_TOKEN url max_items resps = ([], Returned None)).
  { intros url. unfold fetch_paginated_data.
    assert (B : before_request GITHUB_TOKEN max_items {| all_items := []; page := 1 |}
                = Some Return_None).
    { unfold before_request, cap_reached. cbn [all_items length]. rewrite T.
      destruct max_items as [n|]; [|reflexivity].
      specialize (C n eq_refl). destruct (Z.leb_spec n (Z.of_nat 0)); [lia | reflexivity]. }
    destruct resps; cbn [while_true]; rewrite B; reflexivity. }
  split; [exact F|]. intros fs.
  unfold task_1_code_search, task_3_bug_classification, task_2_and_4_commits.
  rewrite !F. repeat split.
Qed.

Lemma no_token_not_started_witness :
  fetch_paginated_data None "u" (Some 10%Z) [Page [JInt 1] true] = ([], Returned None)
  /\ task_1_code_search (Some EmptyString) None [Page [JInt 1] true] ∅ = ([], Returned (Ok ∅)).
Proof.
  split.
  - apply (no_token_not_started None (Some 10%Z) [Page [JInt 1] true]); [reflexivity|].
    intros n [= <-]. lia.
  - apply (no_token_not_started (Some EmptyString) None [Page [JInt 1] true]);
      [reflexivity | discriminate].
Defined.

(** C8, counterexample. No token and a cap of 0: the cap test comes first, so
    the fetcher returns the empty list and not [None], and the issue task
    writes an empty file. *)
Lemma no_token_with_zero_cap :
  fetch_paginated_data None (BASE_URL +:+ "/issues") (Some 0%Z) [] = ([], Returned (Some []))
  /\ task_1_code_search None (Some 0%Z) [] ∅
     = ([], Returned (Ok (save_to_jsonl "task_1_code_search.jsonl" [] ∅)))
  /\ save_to_jsonl "task_1_code_search.jsonl" [] ∅ !! "task_1_code_search.jsonl"
     = Some EmptyString
  /\ (∅ : gmap string string) !! "task_1_code_search.jsonl" = None.
Proof.
  split; [reflexivity|]. split; [reflexivity|]. split.
  - unfold save_to_jsonl. apply lookup_insert_eq.
  - apply lookup_empty.
Qed.

(** ** The extractors *)

Lemma getitem_field (v : json) (k : string) (x : json) :
  Py.getitem v k = Ok x -> field v k = x.
Proof. unfold field. now intros ->. Qed.

Lemma for_each_app {A S : Type} (l1 l2 : list A) (body : A -> S -> result S) (s : S) :
  Py.for_each (l1 ++ l2) body s = (s' <- Py.for_each l1 body s ;; Py.for_each l2 body s').
Proof.
  revert s. induction l1 as [|x l1 IH]; intros s; simpl; [reflexivity|].
  destruct (body x s); simpl; auto.
Qed.

(** One pass of the loop over the issues. *)
Lemma code_search_body_ok (issue : json) (dataset dataset' : list json) :
  code_search_body issue dataset = Ok dataset' ->
  dataset' = dataset ++ (if marked issue then [] else [code_search_record issue]).
Proof.
  unfold code_search_body, marked, code_search_record, field.
  destruct (Py.contains "pull_request" issue) as [[|]|e]; simpl.
  - intros [= <-]. now rewrite app_nil_r.
  - destruct (Py.getitem issue "id"); simpl; [|discriminate].
    destruct (Py.getitem issue "title"); simpl; [|discriminate].
    destruct (Py.getitem issue "body"); simpl; [|discriminate].
    destruct (Py.getitem issue "html_url"); simpl; [|discriminate].
    now intros [= <-].
  - discriminate.
Qed.

Lemma code_search_loop (issues : list json) :
  forall dataset dataset',
    Py.for_each issues code_search_body dataset = Ok dataset' ->
    dataset' = dataset ++ map code_search_record (List.filter (fun i => negb (marked i)) issues).
Proof.
  induction issues as [|i issues IH]; intros dataset dataset' H; simpl in H.
  - injection H as <-. simpl. now rewrite app_nil_r.
  - destruct (code_search_body i dataset) as [d1|e] eqn:B; simpl in H; [|discriminate].
    apply code_search_body_ok in B. apply IH in H. subst. simpl.
    destruct (marked i); simpl; now rewrite <- app_assoc.
Qed.

(** C7. When the issue task gets as far as writing, what it writes is, in
    order, one record [{task, id, query=title, body, url}] for each issue
    that has no [pull_request] key; an issue with the key adds nothing, and
    each record written comes from an issue without it. *)
Theorem code_search_excludes_pull_requests (issues : list json) (dataset : list json) :
  Py.for_each issues code_search_body [] = Ok dataset ->
  dataset = map code_search_record (List.filter (fun i => negb (marked i)) issues)
  /\ (forall rec, In rec dataset ->
        exists issue, In issue issues /\ marked issue = false
                      /\ Py.contains "pull_request" issue = Ok false
                      /\ rec = JDict [("task", JStr "code_search");
                                      ("id", field issue "id");
                                      ("query", field issue "title");
                                      ("body", field issue "body");
                                      ("url", field issue "html_url")]
                      /\ Py.getitem issue "id" = Ok (field issue "id")
                      /\ Py.getitem issue "title" = Ok (field issue "title")
                      /\ Py.getitem issue "body" = Ok (field issue "body")
                      /\ Py.getitem issue "html_url" = Ok (field issue "html_url"))
  /\ (forall issue, In issue issues -> marked issue = true ->
        forall ds, code_search_body issue ds = Ok ds)
  /\ (forall GITHUB_TOKEN max_items resps tr fs,
        fst (fetch_paginated_data GITHUB_TOKEN (BASE_URL +:+ "/issues") max_items resps) = tr ->
        snd (fetch_paginated_data GITHUB_TOKEN (BASE_URL +:+ "/issues") max_items resps)
        = Returned (Some issues) ->
        task_1_code_search GITHUB_TOKEN max_items resps fs
        = (tr, Returned (Ok (save_to_jsonl "task_1_code_search.jsonl"
                               (map code_search_record
                                  (List.filter (fun i => negb (marked i)) issues)) fs)))).
Proof.
  intros H. pose proof (code_search_loop _ _ _ H) as E. simpl in E.
  assert (P : forall issue, In issue issues ->
                exists ds ds', code_search_body issue ds = Ok ds').
  { clear E. revert H. generalize (@nil json) as d0. revert dataset.
    induction issues as [|i l IH]; intros dataset d0 H issue [].
    - subst. simpl in H. destruct (code_search_body issue d0) eqn:B; [eauto|discriminate].
    - simpl in H. destruct (code_search_body i d0) eqn:B; [|discriminate]. simpl in H. eauto. }
  split; [exact E|]. split; [|split].
  - intros rec Hin. rewrite E in Hin. apply in_map_iff in Hin as (issue & <- & Hin).
    apply filter_In in Hin as [Hin Hm]. apply negb_true_iff in Hm.
    exists issue. split; [exact Hin|]. split; [exact Hm|].
    destruct (P _ Hin) as (ds & ds' & B).
    unfold code_search_body in B. unfold marked in Hm. unfold code_search_record, field.
    destruct (Py.contains "pull_request" issue) as [[|]|e]; simpl in B; try discriminate.
    destruct (Py.getitem issue "id"); simpl in B; [|discriminate].
    destruct (Py.getitem issue "title"); simpl in B; [|discriminate].
    destruct (Py.getitem issue "body"); simpl in B; [|discriminate].
    destruct (Py.getitem issue "html_url"); simpl in B; [|discriminate].
    repeat split.
  - intros issue Hin Hm ds. unfold code_search_body. unfold marked in Hm.
    destruct (Py.contains "pull_request" issue) as [[|]|e]; simpl; congruence.
  - intros tok max_items resps tr fs Htr Hf. unfold task_1_code_search.
    destruct (fetch_paginated_data _ _ _ _) as [tr' s]. simpl in Htr, Hf.
    rewrite Htr, Hf, H. simpl. now rewrite <- E.
Qed.

Lemma code_search_excludes_pull_requests_witness :
  [JDict [("task", JStr "code_search"); ("id", JInt 7); ("query", JStr "t");
          ("body", JNull); ("url", JStr "u")]]
  = map code_search_record
      (List.filter (fun i => negb (marked i))
         [JDict [("id", JInt 5); ("pull_request", JDict [])];
          JDict [("id", JInt 7); ("title", JStr "t"); ("body", JNull); ("html_url", JStr "u")]]).
Proof.
  apply (code_search_excludes_pull_requests
           [JDict [("id", JInt 5); ("pull_request", JDict [])];
            JDict [("id", JInt 7); ("title", JStr "t"); ("body", JNull); ("html_url", JStr "u")]]).
  reflexivity.
Defined.

(** One pass of the loop over the commits. *)
Lemma commit_body_ok (commit : json) (ds ds' : commit_datasets) :
  commit_body commit ds = Ok ds' ->
  ds' = if is_merge commit then ds
        else {| dataset_code_repair :=
                  dataset_code_repair ds
                  ++ (if message_matches commit then [commit_record "code_repair" commit] else []);
                dataset_commit_gen := dataset_commit_gen ds ++ [commit_record "commit_gen" commit] |}.
Proof.
  unfold commit_body, is_merge, parents_count, message_matches, commit_record,
    commit_message, author_name, field.
  destruct commit as [| | | | |d]; try discriminate. cbn [Py.getitem Py.get].
  destruct (Py.lookup "sha" d) as [sha|]; [|discriminate].
  destruct (Py.lookup "commit" d) as [inner|]; [|discriminate]. cbn [bind].
  destruct (Py.getitem inner "message") as [msg|] eqn:M; [|discriminate]. cbn [bind].
  destruct (Py.lookup "parents" d) as [parents|]; [|discriminate]. cbn [bind].
  destruct (Py.len parents) as [n|]; [|discriminate]. cbn [bind].
  destruct (1 <? n)%nat; [now intros [= <-]|].
  destruct inner as [| | | | |di]; try discriminate. cbn [Py.getitem Py.get] in *.
  destruct (Py.lookup "message" di) as [m|]; [|discriminate]. injection M as ->.
  destruct (match Py.lookup "author" di with Some x => Ok x | None => Ok (JDict []) end)
    as [author|]; [|discriminate]. cbn [bind].
  destruct (Py.get author "name" JNull) as [name|]; [|discriminate]. cbn [bind].
  unfold search_message.
  destruct msg; try discriminate. cbn [bind].
  destruct (Re.search fix_keywords s); intros [= <-]; destruct ds; simpl;
    rewrite ?app_nil_r; reflexivity.
Qed.

Lemma commit_loop (commits : list json) :
  forall ds ds',
    Py.for_each commits commit_body ds = Ok ds' ->
    dataset_commit_gen ds'
    = dataset_commit_gen ds
      ++ map (commit_record "commit_gen") (List.filter (fun c => negb (is_merge c)) commits)
    /\ dataset_code_repair ds'
       = dataset_code_repair ds
         ++ map (commit_record "code_repair")
              (List.filter (fun c => negb (is_merge c) && message_matches c) commits).
Proof.
  induction commits as [|c commits IH]; intros ds ds' H; simpl in H.
  - injection H as <-. simpl. now rewrite !app_nil_r.
  - destruct (commit_body c ds) as [d1|e] eqn:B; simpl in H; [|discriminate].
    apply commit_body_ok in B. apply IH in H as [H1 H2]. rewrite H1, H2, B. simpl.
    destruct (is_merge c); simpl; [split; reflexivity|].
    destruct (message_matches c); simpl; rewrite <- ?app_assoc, ?app_nil_r; split; reflexivity.
Qed.

(** Every commit of a loop that ends normally went through its pass. *)
Lemma for_each_each {A S : Type} (body : A -> S -> result S) (l : list A) :
  forall s s', Py.for_each l body s = Ok s' ->
               forall x, In x l -> exists s1 s2, body x s1 = Ok s2.
Proof.
  induction l as [|y l IH]; intros s s' H x []; simpl in H.
  - subst. destruct (body x s) eqn:B; [eauto|discriminate].
  - destruct (body y s) eqn:B; [|discriminate]. simpl in H. eauto.
Qed.

(** C6. When the commit task gets as far as writing, a commit with more than
    one parent has left both lists as they were: the run over the commits
    with the merge commits taken out gives the same two lists, the
    commit-generation list has one record for each commit that is not a merge
    commit, the code-repair list is drawn from the same commits, and every
    record of either list is the record of a commit with at most one
    parent. *)
Theorem merge_commits_skipped (commits : list json) (ds : commit_datasets) :
  Py.for_each commits commit_body {| dataset_code_repair := []; dataset_commit_gen := [] |}
  = Ok ds ->
  (forall c, In c commits -> is_merge c = true -> forall ds1, commit_body c ds1 = Ok ds1)
  /\ Py.for_each (List.filter (fun c => negb (is_merge c)) commits) commit_body
       {| dataset_code_repair := []; dataset_commit_gen := [] |} = Ok ds
  /\ dataset_commit_gen ds
     = map (commit_record "commit_gen") (List.filter (fun c => negb (is_merge c)) commits)
  /\ length (dataset_code_repair ds)
     <= length (List.filter (fun c => negb (is_merge c)) commits)
  /\ (forall rec, In rec (dataset_commit_gen ds) \/ In rec (dataset_code_repair ds) ->
        exists c n, In c commits /\ parents_count c = Some n /\ n <= 1
                    /\ (rec = commit_record "commit_gen" c
                        \/ rec = commit_record "code_repair" c)).
Proof.
  intros H.
  assert (S1 : forall c, In c commits -> is_merge c = true ->
                         forall ds1, commit_body c ds1 = Ok ds1).
  { intros c Hin Hm ds1.
    destruct (for_each_each _ _ _ _ H c Hin) as (s1 & s2 & B).
    revert B Hm. unfold commit_body, is_merge, parents_count.
    destruct (Py.getitem c "sha"); [|discriminate]. cbn [bind].
    destruct (Py.getitem c "commit") as [inner|]; [|discriminate]. cbn [bind].
    destruct (Py.getitem inner "message"); [|discriminate]. cbn [bind].
    destruct (Py.getitem c "parents") as [ps|]; [|discriminate]. cbn [bind].
    destruct (Py.len ps) as [n|]; [|discriminate]. cbn [bind].
    now intros _ ->. }
  assert (PC : forall c, In c commits -> is_merge c = false ->
                         exists n, parents_count c = Some n /\ n <= 1).
  { intros c Hin Hm.
    destruct (for_each_each _ _ _ _ H c Hin) as (s1 & s2 & B).
    revert B Hm. unfold commit_body, is_merge, parents_count.
    destruct (Py.getitem c "sha"); [|discriminate]. cbn [bind].
    destruct (Py.getitem c "commit") as [inner|]; [|discriminate]. cbn [bind].
    destruct (Py.getitem inner "message"); [|discriminate]. cbn [bind].
    destruct (Py.getitem c "parents") as [ps|]; [|discriminate]. cbn [bind].
    destruct (Py.len ps) as [n|]; [|discriminate]. cbn [bind].
    intros _ Hn. exists n. split; [reflexivity|]. apply Nat.ltb_ge in Hn. lia. }
  destruct (commit_loop _ _ _ H) as [G R]. simpl in G, R.
  split; [exact S1|]. split; [|split; [exact G|split]].
  - revert H. generalize {| dataset_code_repair := []; dataset_commit_gen := [] |}.
    clear G R PC. induction commits as [|c commits IH]; intros d0 H; [exact H|].
    simpl in H. destruct (commit_body c d0) as [d1|] eqn:B; [|discriminate]. simpl in H.
    cbn [List.filter]. destruct (is_merge c) eqn:Hm; cbn [negb].
    + rewrite (S1 c (or_introl eq_refl) Hm d0) in B. injection B as <-.
      apply IH; [|exact H]. intros; apply S1; [right|]; assumption.
    + cbn [Py.for_each]. rewrite B. cbn [bind].
      apply IH; [|exact H]. intros; apply S1; [right|]; assumption.
  - rewrite R, length_map. clear. induction commits as [|c l IH]; simpl; [lia|].
    destruct (is_merge c); simpl; [exact IH|]. destruct (message_matches c); simpl; lia.
  - intros rec [Hin|Hin]; [rewrite G in Hin | rewrite R in Hin];
      apply in_map_iff in Hin as (c & <- & Hin); apply filter_In in Hin as [Hin Hm].
    + apply negb_true_iff in Hm. destruct (PC c Hin Hm) as (n & ? & ?). eauto 8.
    + apply andb_true_iff in Hm as [Hm _]. apply negb_true_iff in Hm.
      destruct (PC c Hin Hm) as (n & ? & ?). eauto 8.
Qed.

(** The scenario of the specification: one two-parent commit and two
    ordinary commits give two commit-generation records. *)
Lemma merge_commits_skipped_witness :
  dataset_commit_gen
    {| dataset_code_repair := [commit_record "code_repair" (raw_commit "c3" "Fix typo" None [JStr "p"])];
       dataset_commit_gen := [commit_record "commit_gen" (raw_commit "a1" "Add docs" None [JStr "p"]);
                              commit_record "commit_gen" (raw_commit "c3" "Fix typo" None [JStr "p"])] |}
  = map (commit_record "commit_gen")
      (List.filter (fun c => negb (is_merge c))
         [raw_commit "a1" "Add docs" None [JStr "p"];
          raw_commit "b2" "Merge branch" None [JStr "p"; JStr "q"];
          raw_commit "c3" "Fix typo" None [JStr "p"]]).
Proof.
  apply (merge_commits_skipped
           [raw_commit "a1" "Add docs" None [JStr "p"];
            raw_commit "b2" "Merge branch" None [JStr "p"; JStr "q"];
            raw_commit "c3" "Fix typo" None [JStr "p"]]).
  reflexivity.
Defined.

(** ** The pattern of the fix keywords *)

Lemma append_cons (x : ascii) (a b : string) : String x a +:+ b = String x (a +:+ b).
Proof. reflexivity. Qed.

Lemma append_nil_l (a : string) : EmptyString +:+ a = a.
Proof. reflexivity. Qed.

Lemma append_assoc (a b c : string) : (a +:+ b) +:+ c = a +:+ (b +:+ c).
Proof.
  induction a as [|x a IH]; [reflexivity|]. rewrite !append_cons. f_equal. exact IH.
Qed.

Lemma append_nil_r (a : string) : a +:+ EmptyString = a.
Proof.
  induction a as [|x a IH]; [reflexivity|]. rewrite append_cons. f_equal. exact IH.
Qed.

Lemma last_char_cons (s : string) :
  forall a, exists c, last_char (String a s) = Some c.
Proof.
  induction s as [|b s IH]; intros a; [now exists a|].
  destruct (IH b) as [c Hc]. exists c. exact Hc.
Qed.

Lemma last_char_String (a : ascii) (s : string) :
  last_char (String a s) = last_or (Some a) s.
Proof.
  unfold last_or. destruct s as [|b s]; [reflexivity|].
  destruct (last_char_cons s b) as [c Hc].
  change (last_char (String a (String b s))) with (last_char (String b s)).
  now rewrite Hc.
Qed.

Lemma last_or_cons (prev : option ascii) (a : ascii) (s : string) :
  last_or prev (String a s) = last_or (Some a) s.
Proof.
  unfold last_or at 1. rewrite last_char_String. unfold last_or.
  now destruct (last_char s).
Qed.

Lemma last_char_app (pre w : string) :
  last_char (pre +:+ w) = last_or (last_char pre) w.
Proof.
  induction pre as [|a pre IH].
  - rewrite append_nil_l. unfold last_or. cbn [last_char]. now destruct (last_char w).
  - rewrite append_cons, !last_char_String. unfold last_or in *. rewrite IH.
    destruct (last_char pre), (last_char w); reflexivity.
Qed.

Lemma rmatch_lits (kw : string) :
  forall c prev s k,
    Re.rmatch (Re.lits c kw) prev s k
    = match strip (String c kw) s prev with
      | Some (p, t) => k p t
      | None => false
      end.
Proof.
  induction kw as [|c' kw IH]; intros c prev s k; simpl.
  - destruct s as [|a t]; [reflexivity|]. now destruct (Re.ci_eq c a).
  - destruct s as [|a t]; [reflexivity|]. destruct (Re.ci_eq c a); [|reflexivity].
    simpl. rewrite IH. reflexivity.
Qed.

Lemma strip_app (k1 k2 : string) :
  forall s prev,
    strip (k1 +:+ k2) s prev
    = match strip k1 s prev with
      | Some (p, t) => strip k2 t p
      | None => None
      end.
Proof.
  induction k1 as [|c k1 IH]; intros s prev; simpl; [reflexivity|].
  destruct s as [|a t]; [reflexivity|]. destruct (Re.ci_eq c a); [apply IH | reflexivity].
Qed.

(** The matcher on the compiled pattern is the test of the eight words. *)
Lemma fix_keywords_words (prev : option ascii) (s : string) :
  Re.rmatch fix_keywords prev s (fun _ _ => true)
  = existsb (fun kw => word_at kw prev s) code_keywords.
Proof.
  unfold fix_keywords, Re.word. cbn [Re.rmatch]. rewrite !rmatch_lits.
  unfold code_keywords, word_at. cbn [existsb].
  change "fixes" with ("fix" +:+ "es"). change "fixed" with ("fix" +:+ "ed").
  change "corrects" with ("correct" +:+ "s"). change "corrected" with ("correct" +:+ "ed").
  rewrite !strip_app.
  destruct (Re.boundary prev s); cbn [andb]; [|
    repeat match goal with
      | |- context [match ?x with Some _ => _ | None => _ end] => destruct x as [[? ?]|]
      end; reflexivity].
  destruct (strip "fix" s prev) as [[p1 t1]|];
    destruct (strip "bug" s prev) as [[p2 t2]|];
    destruct (strip "patch" s prev) as [[p3 t3]|];
    destruct (strip "correct" s prev) as [[p4 t4]|];
    rewrite ?rmatch_lits;
    repeat match goal with
      | |- context [strip ?k ?t ?p] => destruct (strip k t p) as [[? ?]|]
      end;
    repeat match goal with
      | |- context [Re.boundary ?p ?t] => destruct (Re.boundary p t)
      end; reflexivity.
Qed.

Lemma is_word_lower (c : ascii) : Re.is_word (PyStr.lower_char c) = Re.is_word c.
Proof. destruct c as [[] [] [] [] [] [] [] []]; reflexivity. Qed.

Lemma head_lower (s : string) :
  Re.word_opt (Re.head (PyStr.lower s)) = Re.word_opt (Re.head s).
Proof. destruct s as [|a s]; [reflexivity|]. apply is_word_lower. Qed.

Lemma last_char_lower (s : string) :
  Re.word_opt (last_char (PyStr.lower s)) = Re.word_opt (last_char s).
Proof.
  induction s as [|a s IH]; [reflexivity|].
  destruct s as [|b s]; [apply is_word_lower | exact IH].
Qed.

Lemma head_app (w t : string) :
  Re.head (w +:+ t) = match Re.head w with Some c => Some c | None => Re.head t end.
Proof. destruct w; reflexivity. Qed.

Lemma strip_spec (kw : string) :
  forall s prev p t,
    strip kw s prev = Some (p, t)
    <-> exists w, s = w +:+ t /\ PyStr.lower w = PyStr.lower kw /\ p = last_or prev w.
Proof.
  induction kw as [|c kw IH]; intros s prev p t; cbn [strip].
  - split.
    + intros [= <- <-]. exists EmptyString. repeat split.
    + intros (w & -> & L & ->). destruct w; [reflexivity | discriminate].
  - split.
    + destruct s as [|a s]; [discriminate|].
      destruct (Re.ci_eq c a) eqn:E; [|discriminate]. intros H.
      apply IH in H as (w & -> & L & ->). exists (String a w).
      split; [reflexivity|]. split.
      * cbn [PyStr.lower]. unfold Re.ci_eq in E. apply Ascii.eqb_eq in E. congruence.
      * now rewrite last_or_cons.
    + intros (w & -> & L & ->). destruct w as [|a w]; [discriminate|].
      cbn [PyStr.lower] in L. injection L as L1 L2.
      rewrite append_cons. unfold Re.ci_eq. rewrite L1, Ascii.eqb_refl.
      apply IH. exists w. split; [reflexivity|]. split; [exact L2|].
      now rewrite last_or_cons.
Qed.

Lemma word_at_spec (kw : string) (prev : option ascii) (s : string) :
  keyword kw ->
  word_at kw prev s = true
  <-> exists w t, s = w +:+ t /\ PyStr.lower w = kw
                  /\ Re.word_opt prev = false /\ Re.word_opt (Re.head t) = false.
Proof.
  intros (Hl & Hh & Ht). unfold word_at.
  assert (B : forall w t, PyStr.lower w = kw ->
                Re.boundary prev (w +:+ t) = negb (Re.word_opt prev)
                /\ Re.boundary (last_or prev w) t = negb (Re.word_opt (Re.head t))).
  { intros w t L. unfold Re.boundary.
    assert (Hw : Re.word_opt (Re.head w) = true) by (now rewrite <- head_lower, L).
    assert (Hw' : Re.word_opt (last_char w) = true) by (now rewrite <- last_char_lower, L).
    split.
    - rewrite head_app. destruct (Re.head w); [|discriminate].
      rewrite Hw. now destruct (Re.word_opt prev).
    - unfold last_or. destruct (last_char w); [|discriminate].
      rewrite Hw'. reflexivity. }
  split.
  - destruct (strip kw s prev) as [[p t]|] eqn:E; [|discriminate].
    apply strip_spec in E as (w & -> & L & ->). rewrite Hl in L.
    destruct (B w t L) as [-> ->]. intros H. apply andb_true_iff in H as [H1 H2].
    apply negb_true_iff in H1, H2. eauto 8.
  - intros (w & t & -> & L & H1 & H2).
    assert (E : strip kw (w +:+ t) prev = Some (last_or prev w, t)).
    { apply strip_spec. exists w. rewrite Hl. auto. }
    rewrite E. destruct (B w t L) as [-> ->]. now rewrite H1, H2.
Qed.

Lemma search_from_spec (r : Re.regex) (s : string) :
  forall prev,
    Re.search_from r prev s = true
    <-> exists pre post, s = pre +:+ post
                         /\ Re.rmatch r (last_or prev pre) post (fun _ _ => true) = true.
Proof.
  induction s as [|a s IH]; intros prev; cbn [Re.search_from]; rewrite orb_true_iff.
  - split.
    + intros [H|H]; [|discriminate]. exists EmptyString, EmptyString. auto.
    + intros (pre & post & E & H). destruct pre; [|discriminate].
      rewrite append_nil_l in E. subst post. auto.
  - split.
    + intros [H|H].
      * exists EmptyString, (String a s). auto.
      * apply IH in H as (pre & post & -> & H). exists (String a pre), post.
        rewrite last_or_cons. auto.
    + intros (pre & post & E & H). destruct pre as [|b pre].
      * rewrite append_nil_l in E. subst post. auto.
      * rewrite append_cons in E. injection E as <- ->. right. apply IH.
        exists pre, post. rewrite last_or_cons in H. auto.
Qed.

Lemma code_keywords_keyword (kw : string) : In kw code_keywords -> keyword kw.
Proof.
  intros H. repeat (destruct H as [<-|H]; [repeat split|]). destruct H.
Qed.

(** The compiled pattern is found in a message exactly when one of the eight
    words stands in it as a whole word, letter case aside. *)
Lemma fix_keywords_search (msg : string) :
  Re.search fix_keywords msg = true
  <-> exists kw, In kw code_keywords /\ whole_word kw msg.
Proof.
  unfold Re.search. rewrite search_from_spec. split.
  - intros (pre & post & -> & H). rewrite fix_keywords_words in H.
    apply existsb_exists in H as (kw & Hin & H).
    apply word_at_spec in H as (w & t & -> & L & H1 & H2);
      [|now apply code_keywords_keyword].
    exists kw. split; [exact Hin|]. exists pre, w, t. repeat split; try assumption.
    unfold last_or in H1. now destruct (last_char pre).
  - intros (kw & Hin & pre & w & post & -> & L & H1 & H2).
    exists pre, (w +:+ post). split; [reflexivity|].
    rewrite fix_keywords_words. apply existsb_exists. exists kw. split; [exact Hin|].
    apply word_at_spec; [now apply code_keywords_keyword|].
    exists w, post. repeat split; try assumption.
    unfold last_or. now destruct (last_char pre).
Qed.

(** ** Commits: the keyword filter and the missing author *)

Lemma commit_body_message (c : json) (s1 s2 : commit_datasets) :
  commit_body c s1 = Ok s2 -> is_merge c = false ->
  exists msg, commit_message c = JStr msg.
Proof.
  unfold commit_body, is_merge, parents_count, commit_message, field.
  destruct (Py.getitem c "sha"); [|discriminate]. cbn [bind].
  destruct (Py.getitem c "commit") as [inner|]; [|discriminate]. cbn [bind].
  destruct (Py.getitem inner "message") as [m|]; [|discriminate]. cbn [bind].
  destruct (Py.getitem c "parents") as [ps|]; [|discriminate]. cbn [bind].
  destruct (Py.len ps) as [n|]; [|discriminate]. cbn [bind].
  intros H Hn. rewrite Hn in H.
  destruct (Py.get c "commit" (JDict [])); [|discriminate]. cbn [bind] in H.
  destruct (Py.get a0 "author" (JDict [])); [|discriminate]. cbn [bind] in H.
  destruct (Py.get a1 "name" JNull); [|discriminate]. cbn [bind] in H.
  destruct m; try discriminate. eauto.
Qed.

(** C3, as the code has it. When the commit task gets as far as writing, the
    code-repair list is, in order, the records of the commits that are not
    merge commits and in whose message the pattern is found; for such a
    commit the pattern is found exactly when one of fix, fixes, fixed, bug,
    patch, correct, corrects, corrected stands in the message as a whole
    word, letter case aside; so the message of every code-repair record has
    one of these words, and every code-repair record has its counterpart,
    task tag aside, in the commit-generation list. *)
Theorem code_repair_keywords (commits : list json) (ds : commit_datasets) :
  Py.for_each commits commit_body {| dataset_code_repair := []; dataset_commit_gen := [] |}
  = Ok ds ->
  dataset_code_repair ds
  = map (commit_record "code_repair")
      (List.filter (fun c => negb (is_merge c) && message_matches c) commits)
  /\ (forall c, In c commits -> is_merge c = false ->
        exists msg, commit_message c = JStr msg
                    /\ (In (commit_record "code_repair" c) (dataset_code_repair ds)
                        <-> exists kw, In kw code_keywords /\ whole_word kw msg))
  /\ (forall rec, In rec (dataset_code_repair ds) ->
        exists msg kw, Py.getitem rec "message" = Ok (JStr msg)
                       /\ In kw code_keywords /\ whole_word kw msg)
  /\ (forall rec, In rec (dataset_code_repair ds) ->
        exists c, In c commits /\ is_merge c = false
                  /\ rec = commit_record "code_repair" c
                  /\ In (commit_record "commit_gen" c) (dataset_commit_gen ds)).
Proof.
  intros H. destruct (commit_loop _ _ _ H) as [G R]. simpl in G, R.
  assert (M : forall c, In c commits -> is_merge c = false ->
                        exists msg, commit_message c = JStr msg).
  { intros c Hin Hm. destruct (for_each_each _ _ _ _ H c Hin) as (s1 & s2 & B).
    eapply commit_body_message; eassumption. }
  assert (F : forall c, In c commits -> is_merge c = false -> message_matches c = true ->
                        In (commit_record "code_repair" c) (dataset_code_repair ds)).
  { intros c Hin Hm Hk. rewrite R. apply in_map, filter_In. split; [exact Hin|].
    now rewrite Hm, Hk. }
  split; [exact R|]. split; [|split].
  - intros c Hin Hm. destruct (M c Hin Hm) as [msg E]. exists msg. split; [exact E|].
    rewrite <- fix_keywords_search. split.
    + intros Hr. rewrite R in Hr. apply in_map_iff in Hr as (c' & Ec & Hc').
      apply filter_In in Hc' as [_ Hk]. apply andb_true_iff in Hk as [_ Hk].
      unfold commit_record in Ec. injection Ec as _ Em _.
      unfold message_matches in Hk. rewrite Em, E in Hk. exact Hk.
    + intros Hk. apply F; try assumption. unfold message_matches. now rewrite E.
  - intros rec Hr. rewrite R in Hr. apply in_map_iff in Hr as (c & <- & Hc).
    apply filter_In in Hc as [Hin Hk]. apply andb_true_iff in Hk as [Hm Hk].
    apply negb_true_iff in Hm. destruct (M c Hin Hm) as [msg E].
    unfold message_matches in Hk. rewrite E in Hk.
    apply fix_keywords_search in Hk as (kw & Hkw & W).
    exists msg, kw. split; [|split; assumption].
    unfold commit_record. cbn. now rewrite E.
  - intros rec Hr. rewrite R in Hr. apply in_map_iff in Hr as (c & <- & Hc).
    apply filter_In in Hc as [Hin Hk]. apply andb_true_iff in Hk as [Hm Hk].
    apply negb_true_iff in Hm. exists c. repeat split; try assumption.
    rewrite G. apply in_map, filter_In. split; [exact Hin|]. now rewrite Hm.
Qed.

Lemma code_repair_keywords_witness :
  [commit_record "code_repair" (raw_commit "c3" "Hot-FIX: typo" None [JStr "p"])]
  = map (commit_record "code_repair")
      (List.filter (fun c => negb (is_merge c) && message_matches c)
         [raw_commit "a1" "prefix bugs patched" None [JStr "p"];
          raw_commit "c3" "Hot-FIX: typo" None [JStr "p"]]).
Proof.
  apply (code_repair_keywords
           [raw_commit "a1" "prefix bugs patched" None [JStr "p"];
            raw_commit "c3" "Hot-FIX: typo" None [JStr "p"]]
           {| dataset_code_repair :=
                [commit_record "code_repair" (raw_commit "c3" "Hot-FIX: typo" None [JStr "p"])];
              dataset_commit_gen :=
                [commit_record "commit_gen" (raw_commit "a1" "prefix bugs patched" None [JStr "p"]);
                 commit_record "commit_gen" (raw_commit "c3" "Hot-FIX: typo" None [JStr "p"])] |}).
  reflexivity.
Defined.

(** C3, counterexample. The word patched is in the list of the
    specification and stands as a whole word in the message of this commit,
    which has one parent; the commit gets its commit-generation record and no
    code-repair record, because the pattern has patch without a suffix. *)
Lemma patched_is_not_matched :
  In "patched" spec_keywords
  /\ whole_word "patched" "patched the scaler"
  /\ is_merge (raw_commit "d4" "patched the scaler" None [JStr "p"]) = false
  /\ Py.for_each [raw_commit "d4" "patched the scaler" None [JStr "p"]] commit_body
       {| dataset_code_repair := []; dataset_commit_gen := [] |}
     = Ok {| dataset_code_repair := [];
             dataset_commit_gen :=
               [JDict [("task", JStr "commit_gen"); ("sha", JStr "d4");
                       ("message", JStr "patched the scaler"); ("author", JNull)]] |}.
Proof.
  split; [simpl; tauto|]. split; [|split; reflexivity].
  exists EmptyString, "patched", " the scaler". repeat split.
Qed.

(** Where the chain of [.get] does its work. A raw commit with a sha, a message that is a
    string, a list of at most one parent, and a nested commit object that has
    no author key, or whose author is an object with no name key, goes
    through its pass without an exception: the pass adds the
    commit-generation record with author [None], and the code-repair record
    with author [None] when the pattern is found in the message. *)
Theorem missing_author_is_none (commit inner : json) (sha : json) (msg : string)
    (parents : list json) (ds : commit_datasets) :
  Py.getitem commit "sha" = Ok sha ->
  Py.getitem commit "commit" = Ok inner ->
  Py.getitem inner "message" = Ok (JStr msg) ->
  Py.getitem commit "parents" = Ok (JList parents) ->
  length parents <= 1 ->
  (Py.getitem inner "author" = Raise (KeyError "author")
   \/ exists a, Py.getitem inner "author" = Ok (JDict a) /\ Py.lookup "name" a = None) ->
  commit_body commit ds
  = Ok {| dataset_code_repair :=
            dataset_code_repair ds
            ++ (if Re.search fix_keywords msg
                then [JDict [("task", JStr "code_repair"); ("sha", sha);
                             ("message", JStr msg); ("author", JNull)]]
                else []);
          dataset_commit_gen :=
            dataset_commit_gen ds
            ++ [JDict [("task", JStr "commit_gen"); ("sha", sha);
                       ("message", JStr msg); ("author", JNull)]] |}.
Proof.
  intros Hs Hc Hm Hp Hn Ha. unfold commit_body. rewrite Hs, Hc. cbn [bind].
  rewrite Hm, Hp. cbn [bind Py.len].
  destruct (Nat.ltb_spec 1 (length parents)); [lia|].
  destruct commit as [| | | | |d]; try discriminate.
  destruct inner as [| | | | |di]; try discriminate.
  cbn [Py.getitem Py.get] in *.
  destruct (Py.lookup "commit" d) as [x|]; [|discriminate]. injection Hc as ->.
  cbn [bind Py.get].
  assert (A : (author <- match Py.lookup "author" di with
                         | Some x => Ok x
                         | None => Ok (JDict [])
                         end ;; Py.get author "name" JNull) = Ok JNull).
  { destruct Ha as [Ha|(a & Ha & Hname)].
    - destruct (Py.lookup "author" di); [discriminate|]. reflexivity.
    - destruct (Py.lookup "author" di); [|discriminate]. injection Ha as ->.
      cbn [bind Py.get]. now rewrite Hname. }
  destruct (match Py.lookup "author" di with Some x => Ok x | None => Ok (JDict []) end)
    as [author|]; [|discriminate]. cbn [bind] in *. rewrite A. cbn [bind search_message].
  destruct (Re.search fix_keywords msg); cbn [bind]; rewrite ?app_nil_r; reflexivity.
Qed.

Lemma missing_author_is_none_witness :
  commit_body (raw_commit "e5" "Fix the docs" (Some (JDict [("email", JStr "a@b.c")])) [])
    {| dataset_code_repair := []; dataset_commit_gen := [] |}
  = Ok {| dataset_code_repair :=
            [] ++ (if Re.search fix_keywords "Fix the docs"
                   then [JDict [("task", JStr "code_repair"); ("sha", JStr "e5");
                                ("message", JStr "Fix the docs"); ("author", JNull)]]
                   else []);
          dataset_commit_gen :=
            [] ++ [JDict [("task", JStr "commit_gen"); ("sha", JStr "e5");
                          ("message", JStr "Fix the docs"); ("author", JNull)]] |}.
Proof.
  apply (missing_author_is_none
           (raw_commit "e5" "Fix the docs" (Some (JDict [("email", JStr "a@b.c")])) [])
           (JDict [("message", JStr "Fix the docs"); ("author", JDict [("email", JStr "a@b.c")])])
           (JStr "e5") "Fix the docs" []
           {| dataset_code_repair := []; dataset_commit_gen := [] |});
    try reflexivity.
  - simpl; lia.
  - right. exists [("email", JStr "a@b.c")]. split; reflexivity.
Defined.

(** A commit with two parents and no author is skipped like any merge
    commit: its pass adds no record to either list. *)
Lemma merge_commit_without_author :
  Py.getitem (raw_commit "f6" "Merge pull request" None [JStr "p"; JStr "q"]) "sha"
  = Ok (JStr "f6")
  /\ commit_message (raw_commit "f6" "Merge pull request" None [JStr "p"; JStr "q"])
     = JStr "Merge pull request"
  /\ Py.getitem (raw_commit "f6" "Merge pull request" None [JStr "p"; JStr "q"]) "parents"
     = Ok (JList [JStr "p"; JStr "q"])
  /\ Py.getitem (field (raw_commit "f6" "Merge pull request" None [JStr "p"; JStr "q"]) "commit")
       "author" = Raise (KeyError "author")
  /\ Py.for_each [raw_commit "f6" "Merge pull request" None [JStr "p"; JStr "q"]] commit_body
       {| dataset_code_repair := []; dataset_commit_gen := [] |}
     = Ok {| dataset_code_repair := []; dataset_commit_gen := [] |}.
Proof. repeat split. Qed.

(** C10. The defect, at a failing input: a commit with a sha, a message, one
    parent, and a nested commit object whose author entry is null, so an
    entry without a name. The chain
    [commit.get('commit', {}).get('author', {}).get('name')] takes the null
    for the author (the default [{}] stands in for a missing key only) and
    calls [.get] on it: the pass ends with [AttributeError], and so does the
    commit task, which writes neither of its files. The same commit without
    the author key goes through, with author [None]. *)
Lemma null_author_fails :
  Py.getitem (field (raw_commit "a1" "Fix docs" (Some JNull) [JStr "p"]) "commit") "author"
  = Ok JNull
  /\ Py.get JNull "name" JNull = Raise AttributeError
  /\ is_merge (raw_commit "a1" "Fix docs" (Some JNull) [JStr "p"]) = false
  /\ commit_body (raw_commit "a1" "Fix docs" (Some JNull) [JStr "p"])
       {| dataset_code_repair := []; dataset_commit_gen := [] |}
     = Raise AttributeError
  /\ task_2_and_4_commits (Some "t") None
       [Page [raw_commit "a1" "Fix docs" (Some JNull) [JStr "p"]] false] ∅
     = ([EvGet (BASE_URL +:+ "/commits") 100 1], Returned (Raise AttributeError))
  /\ commit_body (raw_commit "a1" "Fix docs" None [JStr "p"])
       {| dataset_code_repair := []; dataset_commit_gen := [] |}
     = Ok {| dataset_code_repair :=
               [JDict [("task", JStr "code_repair"); ("sha", JStr "a1");
                       ("message", JStr "Fix docs"); ("author", JNull)]];
             dataset_commit_gen :=
               [JDict [("task", JStr "commit_gen"); ("sha", JStr "a1");
                       ("message", JStr "Fix docs"); ("author", JNull)]] |}.
Proof. repeat split. Qed.

(** ** The writer and the reader *)

Lemma length_append (a b : string) :
  String.length (a +:+ b) = String.length a + String.length b.
Proof.
  induction a as [|x a IH]; [reflexivity|]. rewrite append_cons. simpl. now rewrite IH.
Qed.

(** Induction on decoded values, with the hypothesis on every element of a
    list and on every value of a dict. *)
Lemma json_induction (P : json -> Prop) :
  P JNull -> (forall b, P (JBool b)) -> (forall n, P (JInt n)) -> (forall s, P (JStr s)) ->
  (forall l, Forall P l -> P (JList l)) ->
  (forall d, Forall (fun kv => P (snd kv)) d -> P (JDict d)) ->
  forall v, P v.
Proof.
  intros Hnull Hbool Hint Hstr Hlist Hdict.
  fix IH 1. intros [| b | n | s | l | d].
  - exact Hnull.
  - apply Hbool.
  - apply Hint.
  - apply Hstr.
  - apply Hlist. induction l as [|x l IHl]; constructor; [apply IH | exact IHl].
  - apply Hdict. induction d as [|[k x] d IHd]; constructor; [apply IH | exact IHd].
Qed.

(** *** Strings *)

Lemma read_escape_char (c : ascii) (x : string) :
  JsonRead.read_chars (Json.escape_char c +:+ x) = JsonRead.cons_char c (JsonRead.read_chars x).
Proof. destruct c as [[] [] [] [] [] [] [] []]; reflexivity. Qed.

Lemma read_escape (s rest : string) :
  JsonRead.read_chars (Json.escape s +:+ String Json.DQ rest) = Some (s, rest).
Proof.
  induction s as [|c s IH]; [reflexivity|].
  cbn [Json.escape]. rewrite append_assoc, read_escape_char, IH. reflexivity.
Qed.

Lemma read_dumps_str (s rest : string) :
  JsonRead.read_chars (Json.escape s +:+ String Json.DQ EmptyString +:+ rest) = Some (s, rest).
Proof. apply read_escape. Qed.

(** *** Integers *)

Lemma read_digits_uint (d : Decimal.uint) (rest : string) :
  JsonRead.read_digits rest = (Decimal.Nil, rest) ->
  JsonRead.read_digits (NilEmpty.string_of_uint d +:+ rest) = (d, rest).
Proof.
  intros H. induction d; cbn [NilEmpty.string_of_uint]; rewrite ?append_cons;
    [exact H| ..]; cbn [JsonRead.read_digits]; rewrite IHd; reflexivity.
Qed.

Lemma to_uint_no_leading_zero (p : positive) (d : Decimal.uint) :
  Pos.to_uint p = Decimal.D0 d -> False.
Proof.
  intros E.
  assert (U : Decimal.unorm (Pos.to_uint p) = Pos.to_uint p).
  { rewrite <- (DecimalPos.Unsigned.to_of (Pos.to_uint p)), DecimalPos.Unsigned.of_to.
    reflexivity. }
  rewrite E, DecimalFacts.unorm_D0 in U.
  destruct (Decimal.uint_eq_dec d Decimal.Nil) as [->|Hd].
  - apply (DecimalPos.Unsigned.to_uint_nonzero p). exact E.
  - pose proof (DecimalFacts.nb_digits_unorm d Hd) as L. rewrite U in L.
    cbn [Decimal.nb_digits] in L. lia.
Qed.

Lemma ends_number_spec (rest : string) :
  JsonRead.ends_number rest = true ->
  JsonRead.read_digits rest = (Decimal.Nil, rest) /\ JsonRead.not_integer rest = false.
Proof.
  destruct rest as [|c r]; [now split|]. unfold JsonRead.ends_number.
  cbn [JsonRead.read_digits]. destruct (JsonRead.digit c); [discriminate|].
  intros H. apply negb_true_iff in H. now split.
Qed.

(** The digits of a positive number, read back. *)
Lemma read_positive (p : positive) (rest : string) :
  JsonRead.ends_number rest = true ->
  exists c t,
    NilZero.string_of_uint (Pos.to_uint p) +:+ rest = String c t
    /\ (48 <= PyStr.code c <= 57)%N
    /\ JsonRead.read_digits (String c t) = (Pos.to_uint p, rest)
    /\ match Pos.to_uint p with
       | Decimal.Nil => False
       | Decimal.D0 _ => False
       | _ => True
       end.
Proof.
  intros H. apply ends_number_spec in H as [H _].
  pose proof (read_digits_uint (Pos.to_uint p) rest H) as R.
  pose proof (DecimalPos.Unsigned.to_uint_nonnil p) as N0.
  pose proof (to_uint_no_leading_zero p) as Z0.
  destruct (Pos.to_uint p) as [|d|d|d|d|d|d|d|d|d|d];
    [congruence | exfalso; eapply Z0; reflexivity | ..];
    cbn [NilZero.string_of_uint NilEmpty.string_of_uint] in *; rewrite append_cons in *;
    eexists _, _; (split; [reflexivity|]); (split; [vm_compute; split; discriminate|]);
    (split; [exact R | exact I]).
Qed.

Lemma read_int_dumps (n : Z) (rest : string) :
  JsonRead.ends_number rest = true ->
  JsonRead.read_int (Json.dumps_int n +:+ rest) = Some (n, rest).
Proof.
  intros H. pose proof (ends_number_spec rest H) as [D NI].
  unfold Json.dumps_int. destruct n as [|p|p]; cbn [Z.to_int NilZero.string_of_int].
  - change (NilZero.string_of_uint Decimal.zero +:+ rest) with (String "0" rest).
    unfold JsonRead.read_int.
    change (PyStr.code "0" =? 45)%N with false. cbn iota.
    cbn [JsonRead.read_digits]. change (JsonRead.digit "0") with (Some Decimal.D0).
    cbn iota. rewrite D, NI. reflexivity.
  - destruct (read_positive p rest H) as (c & t & E & C & R & NZ). rewrite E.
    unfold JsonRead.read_int.
    destruct (N.eqb_spec (PyStr.code c) 45) as [C45|_]; [lia|].
    rewrite R, NI.
    assert (V : Z.of_int (Decimal.Pos (Pos.to_uint p)) = Z.pos p)
      by (apply (DecimalZ.of_to (Z.pos p))).
    destruct (Pos.to_uint p) as [|d|d|d|d|d|d|d|d|d|d]; try contradiction;
      now rewrite V.
  - rewrite append_cons.
    destruct (read_positive p rest H) as (c & t & E & C & R & NZ). rewrite E.
    unfold JsonRead.read_int. change (PyStr.code "-" =? 45)%N with true. cbn iota.
    rewrite R, NI.
    assert (V : Z.of_int (Decimal.Neg (Pos.to_uint p)) = Z.neg p)
      by (apply (DecimalZ.of_to (Z.neg p))).
    destruct (Pos.to_uint p) as [|d|d|d|d|d|d|d|d|d|d]; try contradiction;
      now rewrite V.
Qed.

(** The first character of a number: the sign or a digit. *)
Lemma dumps_int_head (n : Z) (rest : string) :
  exists c t, Json.dumps_int n +:+ rest = String c t
              /\ (PyStr.code c = 45 \/ 48 <= PyStr.code c <= 57)%N.
Proof.
  unfold Json.dumps_int. destruct n as [|p|p]; cbn [Z.to_int NilZero.string_of_int].
  - exists "0"%char, rest. split; [reflexivity|]. right. vm_compute. split; discriminate.
  - pose proof (DecimalPos.Unsigned.to_uint_nonnil p) as N0.
    destruct (Pos.to_uint p); [congruence|..];
      cbn [NilZero.string_of_uint NilEmpty.string_of_uint]; rewrite append_cons;
      eexists _, _; (split; [reflexivity|]); right; vm_compute; split; discriminate.
  - rewrite append_cons. eexists _, _. split; [reflexivity|]. left. reflexivity.
Qed.

(** *** Values *)

Ltac norm_app :=
  repeat (rewrite append_assoc || rewrite append_cons || rewrite append_nil_l).

Ltac norm_app_in H :=
  repeat (rewrite append_assoc in H || rewrite append_cons in H || rewrite append_nil_l in H).

Lemma dumps_list_cons (x : json) (l : list json) :
  Json.dumps (JList (x :: l))
  = "[" +:+ Json.dumps x +:+ Json.dumps_tail l +:+ "]".
Proof. reflexivity. Qed.

Lemma dumps_tail_cons (y : json) (l : list json) :
  Json.dumps_tail (y :: l) = ", " +:+ Json.dumps y +:+ Json.dumps_tail l.
Proof. reflexivity. Qed.

Lemma dumps_dict_cons (k : string) (x : json) (d : list (string * json)) :
  Json.dumps (JDict ((k, x) :: d))
  = "{" +:+ Json.dumps_str k +:+ ": " +:+ Json.dumps x +:+ Json.dumps_members d +:+ "}".
Proof. reflexivity. Qed.

Lemma dumps_members_cons (k : string) (y : json) (d : list (string * json)) :
  Json.dumps_members ((k, y) :: d)
  = ", " +:+ Json.dumps_str k +:+ ": " +:+ Json.dumps y +:+ Json.dumps_members d.
Proof. reflexivity. Qed.

(** The first character of an encoded value is not white space and does not
    close a list. *)
Lemma dumps_head (v : json) (rest : string) :
  exists c t, Json.dumps v +:+ rest = String c t
              /\ JsonRead.is_ws c = false /\ (PyStr.code c =? 93)%N = false.
Proof.
  destruct v as [| [|] | n | s | [|x l] | [|[k x] d]];
    try (eexists _, _; split; [reflexivity | split; reflexivity]).
  cbn [Json.dumps]. destruct (dumps_int_head n rest) as (c & t & E & C).
    exists c, t. split; [exact E|]. unfold JsonRead.is_ws.
    split; repeat match goal with
             | |- context [(?a =? ?b)%N] => destruct (N.eqb_spec a b); [lia|]
             end; reflexivity.
Qed.

Lemma skip_ws_dumps (v : json) (rest : string) :
  JsonRead.skip_ws (Json.dumps v +:+ rest) = Json.dumps v +:+ rest.
Proof.
  destruct (dumps_head v rest) as (c & t & -> & W & _). cbn [JsonRead.skip_ws]. now rewrite W.
Qed.

Lemma length_dumps_pos (v : json) : 1 <= String.length (Json.dumps v).
Proof.
  destruct (dumps_head v EmptyString) as (c & t & E & _). rewrite append_nil_r in E.
  rewrite E. simpl. lia.
Qed.

Lemma read_value_S (fuel : nat) (s : string) (c : ascii) (t : string) :
  JsonRead.skip_ws s = String c t ->
  JsonRead.read_value (S fuel) s
  = let n := PyStr.code c in
    if (n =? 110)%N then JsonRead.literal "ull" JNull t
    else if (n =? 116)%N then JsonRead.literal "rue" (JBool true) t
    else if (n =? 102)%N then JsonRead.literal "alse" (JBool false) t
    else if (n =? 34)%N then
      match JsonRead.read_chars t with
      | Some (x, r) => Some (JStr x, r)
      | None => None
      end
    else if (n =? 91)%N then
      match JsonRead.skip_ws t with
      | EmptyString => None
      | String c' r =>
          if (PyStr.code c' =? 93)%N then Some (JList [], r)
          else match JsonRead.read_elements fuel t with
               | Some (l, r') => Some (JList l, r')
               | None => None
               end
      end
    else if (n =? 123)%N then
      match JsonRead.skip_ws t with
      | EmptyString => None
      | String c' r =>
          if (PyStr.code c' =? 125)%N then Some (JDict [], r)
          else match JsonRead.read_members fuel t with
               | Some (d, r') => Some (JDict d, r')
               | None => None
               end
      end
    else
      match JsonRead.read_int (String c t) with
      | Some (z, r) => Some (JInt z, r)
      | None => None
      end.
Proof. intros H. cbn [JsonRead.read_value]. rewrite H. reflexivity. Qed.

Lemma fuel_positive (v : json) (fuel : nat) :
  String.length (Json.dumps v) <= fuel -> exists f, fuel = S f.
Proof.
  intros H. pose proof (length_dumps_pos v). destruct fuel as [|f]; [lia | eauto].
Qed.

Lemma reads_back_null : reads_back JNull.
Proof.
  intros fuel s rest Hs He Hf. apply fuel_positive in Hf as [f ->].
  change (Json.dumps JNull +:+ rest) with (String "n" ("ull" +:+ rest)) in Hs.
  rewrite (read_value_S _ _ _ _ Hs). reflexivity.
Qed.

Lemma reads_back_bool (b : bool) : reads_back (JBool b).
Proof.
  intros fuel s rest Hs He Hf. apply fuel_positive in Hf as [f ->]. destruct b.
  - change (Json.dumps (JBool true) +:+ rest) with (String "t" ("rue" +:+ rest)) in Hs.
    rewrite (read_value_S _ _ _ _ Hs). reflexivity.
  - change (Json.dumps (JBool false) +:+ rest) with (String "f" ("alse" +:+ rest)) in Hs.
    rewrite (read_value_S _ _ _ _ Hs). reflexivity.
Qed.

Lemma reads_back_str (x : string) : reads_back (JStr x).
Proof.
  intros fuel s rest Hs He Hf. apply fuel_positive in Hf as [f ->].
  change (Json.dumps (JStr x) +:+ rest)
    with (String Json.DQ ((Json.escape x +:+ String Json.DQ EmptyString) +:+ rest)) in Hs.
  rewrite (read_value_S _ _ _ _ Hs). rewrite append_assoc, read_dumps_str. reflexivity.
Qed.

Lemma reads_back_int (n : Z) : reads_back (JInt n).
Proof.
  intros fuel s rest Hs He Hf. apply fuel_positive in Hf as [f ->].
  cbn [Json.dumps] in Hs. destruct (dumps_int_head n rest) as (c & t & E & C).
  rewrite E in Hs. rewrite (read_value_S _ _ _ _ Hs). cbv zeta.
  repeat match goal with
    | |- context [(PyStr.code c =? ?b)%N] => destruct (N.eqb_spec (PyStr.code c) b); [lia|]
    end.
  rewrite <- E, read_int_dumps by exact He. reflexivity.
Qed.

Lemma read_elements_S (fuel : nat) (s : string) :
  JsonRead.read_elements (S fuel) s
  = match JsonRead.read_value fuel s with
    | None => None
    | Some (v, r) =>
        match JsonRead.skip_ws r with
        | EmptyString => None
        | String c r' =>
            if (PyStr.code c =? 44)%N then
              match JsonRead.read_elements fuel r' with
              | Some (l, r'') => Some (v :: l, r'')
              | None => None
              end
            else if (PyStr.code c =? 93)%N then Some ([v], r')
            else None
        end
    end.
Proof. reflexivity. Qed.

Lemma read_members_S (fuel : nat) (s : string) (t : string) :
  JsonRead.skip_ws s = String Json.DQ t ->
  JsonRead.read_members (S fuel) s
  = match JsonRead.read_chars t with
    | None => None
    | Some (k, r) =>
        match JsonRead.skip_ws r with
        | EmptyString => None
        | String c r1 =>
            if (PyStr.code c =? 58)%N then
              match JsonRead.read_value fuel r1 with
              | None => None
              | Some (v, r2) =>
                  match JsonRead.skip_ws r2 with
                  | EmptyString => None
                  | String c2 r3 =>
                      if (PyStr.code c2 =? 44)%N then
                        match JsonRead.read_members fuel r3 with
                        | Some (d, r4) => Some ((k, v) :: d, r4)
                        | None => None
                        end
                      else if (PyStr.code c2 =? 125)%N then Some ([(k, v)], r3)
                      else None
                  end
              end
            else None
        end
    end.
Proof. intros H. cbn [JsonRead.read_members]. rewrite H. reflexivity. Qed.

Lemma reads_back_elements (l : list json) :
  Forall reads_back l ->
  forall x fuel s rest,
    reads_back x ->
    JsonRead.skip_ws s = Json.dumps x +:+ Json.dumps_tail l +:+ "]" +:+ rest ->
    String.length (Json.dumps x +:+ Json.dumps_tail l) < fuel ->
    JsonRead.read_elements fuel s = Some (x :: l, rest).
Proof.
  induction 1 as [|y l Hy Hl IH]; intros x fuel s rest Hx Hs Hf;
    rewrite length_append in Hf; (destruct fuel as [|f]; [lia|]);
    rewrite read_elements_S.
  - rewrite (Hx f s ("]" +:+ rest)); [reflexivity | | reflexivity | lia].
    rewrite Hs. reflexivity.
  - rewrite dumps_tail_cons in Hs, Hf.
    rewrite (Hx f s (", " +:+ Json.dumps y +:+ Json.dumps_tail l +:+ "]" +:+ rest));
      [ | rewrite Hs; now norm_app | reflexivity | lia].
    norm_app. cbn [JsonRead.skip_ws]. cbv beta iota.
    change (JsonRead.is_ws ",") with false. cbv iota.
    change (PyStr.code "," =? 44)%N with true. cbv iota.
    rewrite (IH y f _ rest Hy); [reflexivity| |].
    + cbn [JsonRead.skip_ws]. change (JsonRead.is_ws " ") with true. cbv iota.
      rewrite skip_ws_dumps. now norm_app.
    + rewrite !length_append in *. simpl in Hf. lia.
Qed.

Lemma reads_back_members (d : list (string * json)) :
  Forall (fun kv => reads_back (snd kv)) d ->
  forall k x fuel s rest,
    reads_back x ->
    JsonRead.skip_ws s
    = Json.dumps_str k +:+ ": " +:+ Json.dumps x +:+ Json.dumps_members d +:+ "}" +:+ rest ->
    String.length (Json.dumps_str k +:+ ": " +:+ Json.dumps x +:+ Json.dumps_members d) < fuel ->
    JsonRead.read_members fuel s = Some ((k, x) :: d, rest).
Proof.
  induction 1 as [|[k' y] d Hy Hd IH]; intros k x fuel s rest Hx Hs Hf;
    rewrite !length_append in Hf; (destruct fuel as [|f]; [lia|]);
    unfold Json.dumps_str in Hs; norm_app_in Hs;
    rewrite (read_members_S _ _ _ Hs), read_escape;
    cbn [JsonRead.skip_ws]; change (JsonRead.is_ws ":") with false; cbv iota;
    change (PyStr.code ":" =? 58)%N with true; cbv iota.
  - rewrite (Hx f _ ("}" +:+ rest)); [reflexivity | | reflexivity | simpl in Hf; lia].
    cbn [JsonRead.skip_ws]. change (JsonRead.is_ws " ") with true. cbv iota.
    rewrite skip_ws_dumps. reflexivity.
  - rewrite dumps_members_cons in Hf. rewrite !length_append in Hf.
    rewrite (Hx f _ (", " +:+ Json.dumps_str k' +:+ ": " +:+ Json.dumps y
                     +:+ Json.dumps_members d +:+ "}" +:+ rest));
      [ | | reflexivity | simpl in Hf; lia].
    + norm_app. cbn [JsonRead.skip_ws]. change (JsonRead.is_ws ",") with false. cbv iota.
      change (PyStr.code "," =? 44)%N with true. cbv iota.
      rewrite (IH k' y f _ rest Hy); [reflexivity| |].
      * cbn [JsonRead.skip_ws]. change (JsonRead.is_ws " ") with true. cbv iota.
        unfold Json.dumps_str. norm_app. cbn [JsonRead.skip_ws].
        change (JsonRead.is_ws Json.DQ) with false. cbv iota. reflexivity.
      * rewrite !length_append. simpl in Hf |- *. lia.
    + cbn [JsonRead.skip_ws]. change (JsonRead.is_ws " ") with true. cbv iota.
      rewrite dumps_members_cons. norm_app. rewrite skip_ws_dumps. reflexivity.
Qed.

Lemma reads_back_all (v : json) : reads_back v.
Proof.
  induction v as [| b | n | x | l Hl | d Hd] using json_induction.
  - apply reads_back_null.
  - apply reads_back_bool.
  - apply reads_back_int.
  - apply reads_back_str.
  - intros fuel s rest Hs He Hf. destruct (fuel_positive _ _ Hf) as [f ->].
    destruct l as [|x l].
    + change (Json.dumps (JList []) +:+ rest) with (String "[" (String "]" rest)) in Hs.
      rewrite (read_value_S _ _ _ _ Hs). reflexivity.
    + inversion Hl as [|? ? Hx Hl']; subst.
      rewrite dumps_list_cons in Hs, Hf. norm_app_in Hs.
      rewrite (read_value_S _ _ _ _ Hs). cbv zeta.
      change (PyStr.code "[" =? 110)%N with false. change (PyStr.code "[" =? 116)%N with false.
      change (PyStr.code "[" =? 102)%N with false. change (PyStr.code "[" =? 34)%N with false.
      change (PyStr.code "[" =? 91)%N with true. cbv iota.
      rewrite (reads_back_elements l Hl' x f _ rest Hx).
      * rewrite skip_ws_dumps.
        destruct (dumps_head x (Json.dumps_tail l +:+ String "]" rest)) as (c & t & -> & _ & C).
        now rewrite C.
      * rewrite skip_ws_dumps. now norm_app.
      * rewrite !length_append in *. simpl in Hf. lia.
  - intros fuel s rest Hs He Hf. destruct (fuel_positive _ _ Hf) as [f ->].
    destruct d as [|[k x] d].
    + change (Json.dumps (JDict []) +:+ rest) with (String "{" (String "}" rest)) in Hs.
      rewrite (read_value_S _ _ _ _ Hs). reflexivity.
    + inversion Hd as [|? ? Hx Hd']; subst. cbn [snd] in Hx.
      rewrite dumps_dict_cons in Hs, Hf. norm_app_in Hs.
      rewrite (read_value_S _ _ _ _ Hs). cbv zeta.
      change (PyStr.code "{" =? 110)%N with false. change (PyStr.code "{" =? 116)%N with false.
      change (PyStr.code "{" =? 102)%N with false. change (PyStr.code "{" =? 34)%N with false.
      change (PyStr.code "{" =? 91)%N with false. change (PyStr.code "{" =? 123)%N with true.
      cbv iota.
      rewrite (reads_back_members d Hd' k x f _ rest Hx).
      * unfold Json.dumps_str. norm_app. cbn [JsonRead.skip_ws].
        change (JsonRead.is_ws Json.DQ) with false. cbv iota. reflexivity.
      * unfold Json.dumps_str. norm_app. cbn [JsonRead.skip_ws].
        change (JsonRead.is_ws Json.DQ) with false. cbv iota. reflexivity.
      * rewrite !length_append in *. unfold Json.dumps_str in *. simpl in Hf |- *. lia.
Qed.

(** Decoding the text of a value gives the value back. *)
Lemma loads_dumps (v : json) : JsonRead.loads (Json.dumps v) = Some v.
Proof.
  unfold JsonRead.loads.
  rewrite (reads_back_all v (S (String.length (Json.dumps v))) (Json.dumps v) EmptyString).
  - reflexivity.
  - rewrite <- (append_nil_r (Json.dumps v)) at 1. rewrite skip_ws_dumps. reflexivity.
  - reflexivity.
  - lia.
Qed.

(** *** Lines *)

Lemma has_char_append (c : ascii) (a b : string) :
  has_char c (a +:+ b) = has_char c a || has_char c b.
Proof.
  induction a as [|x a IH]; [reflexivity|].
  rewrite append_cons. cbn [has_char]. rewrite IH. now rewrite orb_assoc.
Qed.

Lemma escape_char_no_newline (c : ascii) : has_char Json.NL (Json.escape_char c) = false.
Proof. destruct c as [[] [] [] [] [] [] [] []]; reflexivity. Qed.

Lemma escape_no_newline (s : string) : has_char Json.NL (Json.escape s) = false.
Proof.
  induction s as [|c s IH]; [reflexivity|].
  cbn [Json.escape]. rewrite has_char_append, escape_char_no_newline, IH. reflexivity.
Qed.

Lemma dumps_str_no_newline (s : string) : has_char Json.NL (Json.dumps_str s) = false.
Proof.
  unfold Json.dumps_str. cbn [has_char]. rewrite has_char_append, escape_no_newline.
  reflexivity.
Qed.

Lemma uint_no_newline (d : Decimal.uint) :
  has_char Json.NL (NilEmpty.string_of_uint d) = false.
Proof. induction d; cbn [NilEmpty.string_of_uint has_char]; auto. Qed.

Lemma dumps_int_no_newline (n : Z) : has_char Json.NL (Json.dumps_int n) = false.
Proof.
  unfold Json.dumps_int.
  assert (U : forall d, has_char Json.NL (NilZero.string_of_uint d) = false).
  { intros d. destruct d; try reflexivity; apply (uint_no_newline (_ d)). }
  destruct (Z.to_int n); cbn [NilZero.string_of_int has_char]; rewrite U; reflexivity.
Qed.

(** The text of a value has no newline in it. *)
Lemma dumps_no_newline (v : json) : has_char Json.NL (Json.dumps v) = false.
Proof.
  induction v as [| b | n | x | l Hl | d Hd] using json_induction.
  - reflexivity.
  - destruct b; reflexivity.
  - apply dumps_int_no_newline.
  - apply dumps_str_no_newline.
  - destruct l as [|x l]; [reflexivity|]. inversion Hl as [|? ? Hx Hl']; subst.
    rewrite dumps_list_cons, !has_char_append, Hx.
    assert (T : has_char Json.NL (Json.dumps_tail l) = false).
    { clear Hl Hx. induction Hl' as [|y l Hy _ IH]; [reflexivity|].
      rewrite dumps_tail_cons, !has_char_append, Hy, IH. reflexivity. }
    rewrite T. reflexivity.
  - destruct d as [|[k x] d]; [reflexivity|]. inversion Hd as [|? ? Hx Hd']; subst.
    cbn [snd] in Hx.
    rewrite dumps_dict_cons, !has_char_append, Hx, dumps_str_no_newline.
    assert (T : has_char Json.NL (Json.dumps_members d) = false).
    { clear Hd Hx. induction Hd' as [|[k' y] d Hy _ IH]; [reflexivity|]. cbn [snd] in Hy.
      rewrite dumps_members_cons, !has_char_append, Hy, IH, dumps_str_no_newline.
      reflexivity. }
    rewrite T. reflexivity.
Qed.

Lemma lines_line (a b : string) :
  has_char Json.NL a = false ->
  JsonRead.lines (a +:+ String Json.NL b) = a :: JsonRead.lines b.
Proof.
  induction a as [|c a IH]; intros H.
  - reflexivity.
  - cbn [has_char] in H. apply orb_false_iff in H as [Hc Ha].
    rewrite append_cons. cbn [JsonRead.lines]. rewrite Hc, (IH Ha). reflexivity.
Qed.

Lemma lines_jsonl_text (data_list : list json) :
  JsonRead.lines (jsonl_text data_list) = map Json.dumps data_list.
Proof.
  induction data_list as [|item l IH]; [reflexivity|].
  cbn [jsonl_text map]. rewrite lines_line by apply dumps_no_newline. now rewrite IH.
Qed.

Lemma written_text (data_list : list json) (acc : string) :
  fold_left (fun f item => f +:+ (Json.dumps item +:+ String Json.NL EmptyString)) data_list acc
  = acc +:+ jsonl_text data_list.
Proof.
  revert acc. induction data_list as [|item l IH]; intros acc; cbn [fold_left jsonl_text].
  - now rewrite append_nil_r.
  - rewrite IH. now norm_app.
Qed.

Lemma load_all_dumps (data_list : list json) :
  JsonRead.load_all (map Json.dumps data_list) = Some data_list.
Proof.
  induction data_list as [|item l IH]; [reflexivity|].
  cbn [map JsonRead.load_all]. now rewrite loads_dumps, IH.
Qed.

(** C9. The file [save_to_jsonl] leaves holds one line for each record, in
    order, each line being the [json.dumps] text of its record; a character
    above U+007F of a string is written as itself; every line decodes as
    JSON, and decoding the lines in order gives the list of records back, so
    the same number of records in the same order. The other files are left
    as they were. *)
Theorem jsonl_round_trip (filename : string) (data_list : list json)
    (fs : gmap string string) :
  exists content,
    save_to_jsonl filename data_list fs !! filename = Some content
    /\ content = jsonl_text data_list
    /\ JsonRead.lines content = map Json.dumps data_list
    /\ length (JsonRead.lines content) = length data_list
    /\ Forall2 (fun line item => JsonRead.loads line = Some item)
         (JsonRead.lines content) data_list
    /\ JsonRead.read_jsonl content = Some data_list
    /\ (forall c, (128 <= PyStr.code c)%N -> Json.escape_char c = String c EmptyString)
    /\ (forall other, other <> filename ->
          save_to_jsonl filename data_list fs !! other = fs !! other).
Proof.
  exists (jsonl_text data_list). unfold save_to_jsonl.
  rewrite written_text, append_nil_l, lookup_insert_eq, lines_jsonl_text, length_map.
  repeat split.
  - induction data_list as [|item l IH]; constructor; [apply loads_dumps | exact IH].
  - unfold JsonRead.read_jsonl. rewrite lines_jsonl_text. apply load_all_dumps.
  - intros c Hc. destruct c as [[] [] [] [] [] [] [] []]; try reflexivity;
      vm_compute in Hc; exfalso; apply Hc; reflexivity.
  - intros other Hne. apply lookup_insert_ne. congruence.
Qed.

(** * Further properties *)

(** ** The fetcher: what it reads, in which order, and when it stops *)

Section FetcherMore.

Variable GITHUB_TOKEN : option string.
Variable url : string.
Variable max_items : option Z.

#[local] Abbreviation loop' := (while_true GITHUB_TOKEN url max_items).

Lemma count_gets_app (a b : list event) : count_gets (a ++ b) = count_gets a + count_gets b.
Proof.
  induction a as [|[u pp q|s] a IH]; simpl; [reflexivity | now rewrite IH | exact IH].
Qed.

(** What one answered request does to the state. *)
Lemma after_request_cases (st : loop_state) (r : response) :
  (exists evs, after_request st r = (evs, Break {| all_items := all_items st ++ page_data r;
                                                    page := page st |})
               /\ count_gets evs = 0 /\ evs = [])
  \/ (after_request st r
      = ([EvSleep 1], Continue {| all_items := all_items st ++ page_data r; page := S (page st) |})
      /\ is_page r = true /\ page_data r <> [])
  \/ (after_request st r = ([EvSleep 3601], Continue st)
      /\ rate_limited r = true).
Proof.
  destruct r as [data links|text]; cbn [after_request page_data is_page rate_limited].
  - destruct data as [|x data].
    + left. exists []. rewrite app_nil_r. destruct st; auto.
    + destruct links; cbn [negb].
      * right; left. repeat split. discriminate.
      * left. exists []. auto.
  - rewrite app_nil_r. destruct (bad_credentials text); cbn [negb andb].
    + left. exists []. destruct st; auto.
    + destruct (rate_limit_exceeded text).
      * right; right. auto.
      * left. exists []. destruct st; auto.
Qed.

(** The state of a loop that stands at a request: it holds the records of
    all the responses so far, in order, and its page number has moved by the
    number of pages among them. *)
Lemma pending_state (pre : list response) :
  forall st tr st',
    loop' pre st = (tr, Pending st') ->
    all_items st' = all_items st ++ concat (map page_data pre)
    /\ page st' = page st + length (List.filter is_page pre)
    /\ count_gets tr = length pre.
Proof.
  induction pre as [|r pre IH]; intros st tr st' H; cbn [while_true] in H.
  - destruct (before_request _ _ _); [discriminate|]. injection H as <- <-.
    cbn. rewrite app_nil_r. repeat split. lia.
  - destruct (before_request _ _ _); [discriminate|].
    destruct (after_request_cases st r) as [(evs & E & _)|[(E & P & _)|(E & R)]];
      rewrite E in H; try discriminate;
      destruct (loop' pre _) as [tr1 s1] eqn:L; unfold emit in H; cbn [fst snd] in H;
      injection H as <- ->; destruct (IH _ _ _ L) as (A & B & C).
    + cbn [all_items page] in A, B. cbn [map concat List.filter]. rewrite P.
      cbn [length count_gets app]. rewrite A, B, C, <- app_assoc. repeat split. lia.
    + assert (D : page_data r = [] /\ is_page r = false).
      { destruct r; [discriminate|]. split; reflexivity. }
      destruct D as [D1 D2]. cbn [map concat List.filter]. rewrite D1, D2.
      cbn [length count_gets app]. rewrite A, B, C. repeat split.
Qed.

(** What a loop that has ended returns: the records of the responses it
    asked for, in order; [None] comes before any request. *)
Lemma returned_state (resps : list response) :
  forall st tr f,
    loop' resps st = (tr, Returned f) ->
    count_gets tr <= length resps
    /\ match f with
       | Break st' =>
           all_items st' = all_items st ++ concat (map page_data (firstn (count_gets tr) resps))
       | Return_None => tr = [] /\ PyStr.truthy GITHUB_TOKEN = false
       | Continue _ => False
       end.
Proof.
  assert (B0 : forall st f, before_request GITHUB_TOKEN max_items st = Some f ->
                 f = Break st \/ (f = Return_None /\ PyStr.truthy GITHUB_TOKEN = false)).
  { intros st f. unfold before_request. destruct (cap_reached _ _); [intros [= <-]; auto|].
    destruct (PyStr.truthy GITHUB_TOKEN); cbn [negb]; [discriminate|].
    intros [= <-]. auto. }
  assert (B1 : forall st, before_request GITHUB_TOKEN max_items st = None ->
                 PyStr.truthy GITHUB_TOKEN = true).
  { intros st. unfold before_request. destruct (cap_reached _ _); [discriminate|].
    destruct (PyStr.truthy GITHUB_TOKEN); [reflexivity | discriminate]. }
  induction resps as [|r resps IH]; intros st tr f H; cbn [while_true] in H.
  - destruct (before_request _ _ _) as [f0|] eqn:B; [|discriminate]. injection H as <- <-.
    cbn. split; [lia|]. destruct (B0 _ _ B) as [->|[-> T]]; [now rewrite app_nil_r | auto].
  - destruct (before_request _ _ _) as [f0|] eqn:B.
    + injection H as <- <-. cbn. split; [lia|].
      destruct (B0 _ _ B) as [->|[-> T]]; [now rewrite app_nil_r | auto].
    + destruct (after_request_cases st r) as [(evs & E & _ & ->)|[(E & P & _)|(E & R)]];
        rewrite E in H.
      * injection H as <- <-. cbn. split; [lia|]. now rewrite app_nil_r.
      * destruct (loop' resps _) as [tr1 s1] eqn:L. unfold emit in H; cbn [fst snd] in H.
        injection H as <- ->. destruct (IH _ _ _ L) as [C F].
        cbn [count_gets app firstn map concat length]. split; [lia|].
        destruct f as [s2|s2|]; [exact F| |].
        -- cbn [all_items] in F. now rewrite F, <- app_assoc.
        -- destruct F as [_ T]. rewrite (B1 _ B) in T. discriminate.
      * destruct (loop' resps _) as [tr1 s1] eqn:L. unfold emit in H; cbn [fst snd] in H.
        injection H as <- ->. destruct (IH _ _ _ L) as [C F].
        assert (D : page_data r = []) by (destruct r; [discriminate | reflexivity]).
        cbn [count_gets app firstn map concat length]. rewrite D. split; [lia|].
        destruct f as [s2|s2|]; [exact F | exact F |].
        destruct F as [_ T]. rewrite (B1 _ B) in T. discriminate.
Qed.

(** Responses after the one that ends a loop change nothing. *)
Lemma returned_app (resps more : list response) :
  forall st tr f,
    loop' resps st = (tr, Returned f) ->
    loop' (resps ++ more) st = (tr, Returned f).
Proof.
  induction resps as [|r resps IH]; intros st tr f H; cbn [while_true app] in *.
  - destruct (before_request _ _ _) as [f0|] eqn:B; [|discriminate].
    destruct more; cbn [while_true]; now rewrite B.
  - destruct (before_request _ _ _) as [f0|] eqn:B; [exact H|].
    destruct (after_request st r) as [evs [st1| |]]; try exact H.
    destruct (loop' resps st1) as [tr1 s1] eqn:L. unfold emit in H; cbn [fst snd] in H.
    injection H as <- ->. now rewrite (IH _ _ _ L).
Qed.

Lemma no_cap_not_reached (items : list json) :
  has_cap max_items = false -> cap_reached max_items items = false.
Proof. unfold has_cap, cap_reached. destruct max_items; [discriminate | reflexivity]. Qed.

(** A loop that gets past the two tests at its top makes a request. *)
Lemma loop_requests (resps : list response) (st : loop_state) :
  before_request GITHUB_TOKEN max_items st = None ->
  exists tl, whole_trace url (loop' resps st) = EvGet url ITEMS_PER_PAGE (page st) :: tl.
Proof.
  intros B. destruct resps as [|r resps]; cbn [while_true]; rewrite B.
  - cbn. eauto.
  - destruct (after_request st r) as [evs [st1| |]]; try (cbn; eauto).
    destruct (loop' resps st1) as [tr1 [f|st2]]; unfold emit; cbn; eauto.
Qed.

Lemma whole_trace_emit {A : Type} (evs : list event) (r : list event * status A) :
  whole_trace url (emit evs r) = evs ++ whole_trace url r.
Proof. destruct r as [tr [a|st]]; unfold emit; cbn; [reflexivity | now rewrite app_assoc]. Qed.

(** The trace of a loop asks for the pages in order. *)
Lemma loop_paced (resps : list response) :
  forall st,
    paced url (has_cap max_items) (page st) (whole_trace url (loop' resps st)) = true.
Proof.
  assert (G0 : forall p, paced url (has_cap max_items) p [EvGet url ITEMS_PER_PAGE p] = true).
  { intros p. cbn [paced]. now rewrite String.eqb_refl, !Nat.eqb_refl. }
  induction resps as [|r resps IH]; intros st; cbn [while_true].
  - destruct (before_request _ _ _); [reflexivity | apply G0].
  - destruct (before_request _ _ _) eqn:B; [reflexivity|].
    assert (T : PyStr.truthy GITHUB_TOKEN = true).
    { unfold before_request in B. destruct (cap_reached _ _); [discriminate|].
      destruct (PyStr.truthy GITHUB_TOKEN); [reflexivity | discriminate]. }
    destruct (after_request_cases st r) as [(evs & E & _ & ->)|[(E & _)|(E & _)]]; rewrite E.
    + apply G0.
    + rewrite whole_trace_emit. cbn [app paced].
      rewrite String.eqb_refl, !Nat.eqb_refl. cbn [andb Nat.eqb].
      pose proof (IH {| all_items := all_items st ++ page_data r; page := S (page st) |}) as P.
      cbn [page] in P. rewrite P, andb_true_r.
      destruct (whole_trace url (loop' resps _)) as [|e tl] eqn:W; [|reflexivity].
      destruct (has_cap max_items) eqn:C; [reflexivity|].
      destruct (loop_requests resps {| all_items := all_items st ++ page_data r;
                                       page := S (page st) |}) as [tl W'].
      { unfold before_request. rewrite (no_cap_not_reached _ C), T. reflexivity. }
      rewrite W in W'. discriminate.
    + rewrite whole_trace_emit. cbn [app paced].
      rewrite String.eqb_refl, !Nat.eqb_refl. cbn [andb].
      destruct (loop_requests resps st B) as [tl W]. rewrite (IH st), W, andb_true_r.
      cbn. reflexivity.
Qed.

End FetcherMore.

(** X1. A failed request whose text has neither the bad-credentials nor the
    rate-limit substring ends the fetch at once: no pause, no other request,
    and the records accumulated so far are returned, cut to the cap when
    there is one. *)
Theorem other_error_returns_partial (GITHUB_TOKEN : option string) (url : string)
    (max_items : option Z) (pre : list response) (text : string) (rest : list response)
    (tr : list event) (st : loop_state) :
  fetch_paginated_data GITHUB_TOKEN url max_items pre = (tr, Pending st) ->
  bad_credentials text = false ->
  rate_limit_exceeded text = false ->
  fetch_paginated_data GITHUB_TOKEN url max_items (pre ++ RequestException text :: rest)
  = (tr ++ [EvGet url ITEMS_PER_PAGE (page st)],
     Returned (Some match max_items with
                    | Some n => slice_to (all_items st) n
                    | None => all_items st
                    end)).
Proof.
  intros H B R. rewrite (fetch_step _ _ _ _ _ rest _ _ H). cbn [after_request].
  rewrite B, R. cbn [after_loop]. destruct max_items; reflexivity.
Qed.

Lemma other_error_returns_partial_witness :
  fetch_paginated_data (Some "t") "u" None
    ([Page [JInt 1] true] ++ RequestException "502 Server Error: Bad Gateway" :: [Page [JInt 2] false])
  = ([EvGet "u" 100 1; EvSleep 1] ++ [EvGet "u" ITEMS_PER_PAGE 2], Returned (Some [JInt 1])).
Proof.
  apply (other_error_returns_partial (Some "t") "u" None [Page [JInt 1] true]
           "502 Server Error: Bad Gateway" [Page [JInt 2] false] [EvGet "u" 100 1; EvSleep 1]
           {| all_items := [JInt 1]; page := 2 |}); reflexivity.
Defined.

(** X2. While a fetch is running, [all_items] holds the records of every
    page received so far, in the order of arrival, the page counter is one
    more than the number of pages received, and one request has been made
    for each response. *)
Theorem running_fetch_state (GITHUB_TOKEN : option string) (url : string)
    (max_items : option Z) (pre : list response) (tr : list event) (st : loop_state) :
  fetch_paginated_data GITHUB_TOKEN url max_items pre = (tr, Pending st) ->
  all_items st = concat (map page_data pre)
  /\ page st = S (length (List.filter is_page pre))
  /\ count_gets tr = length pre.
Proof.
  intros H. apply fetch_pending in H.
  destruct (pending_state _ _ _ _ _ _ _ H) as (A & B & C). cbn in A, B. auto.
Qed.

Lemma running_fetch_state_witness :
  all_items {| all_items := [JInt 1; JInt 2; JInt 3]; page := 3 |}
  = concat (map page_data [Page [JInt 1; JInt 2] true; RequestException "API rate limit exceeded";
                           Page [JInt 3] true])
  /\ page {| all_items := [JInt 1; JInt 2; JInt 3]; page := 3 |}
     = S (length (List.filter is_page
                    [Page [JInt 1; JInt 2] true; RequestException "API rate limit exceeded";
                     Page [JInt 3] true]))
  /\ count_gets [EvGet "u" 100 1; EvSleep 1; EvGet "u" 100 2; EvSleep 3601; EvGet "u" 100 2;
                 EvSleep 1]
     = length [Page [JInt 1; JInt 2] true; RequestException "API rate limit exceeded";
               Page [JInt 3] true].
Proof.
  apply (running_fetch_state (Some "t") "u" None
           [Page [JInt 1; JInt 2] true; RequestException "API rate limit exceeded";
            Page [JInt 3] true]).
  reflexivity.
Defined.

(** X3. The list a fetch returns is made of the records of the responses it
    asked for, page after page in the order of arrival (cut to the cap when
    there is one); it has asked for no more responses than it made
    requests. *)
Theorem fetch_returns_in_arrival_order (GITHUB_TOKEN : option string) (url : string)
    (max_items : option Z) (resps : list response) (tr : list event) (items : list json) :
  fetch_paginated_data GITHUB_TOKEN url max_items resps = (tr, Returned (Some items)) ->
  count_gets tr <= length resps
  /\ items = match max_items with
             | Some n => slice_to (concat (map page_data (firstn (count_gets tr) resps))) n
             | None => concat (map page_data (firstn (count_gets tr) resps))
             end.
Proof.
  unfold fetch_paginated_data. intros H.
  destruct (while_true _ _ _ _ _) as [tr' [f|st']] eqn:L; [|discriminate].
  injection H as <- H. destruct (returned_state _ _ _ _ _ _ _ L) as [C F].
  split; [exact C|]. destruct f as [s|s|]; [contradiction| |discriminate].
  cbn in F. cbn [after_loop] in H. rewrite F in H. destruct max_items; now injection H as <-.
Qed.

Lemma fetch_returns_in_arrival_order_witness :
  count_gets [EvGet "u" 100 1; EvSleep 1; EvGet "u" 100 2] <= 3
  /\ [JInt 1; JInt 2; JInt 3]
     = slice_to (concat (map page_data
                           (firstn (count_gets [EvGet "u" 100 1; EvSleep 1; EvGet "u" 100 2])
                              [Page [JInt 1; JInt 2] true; Page [JInt 3; JInt 4] false;
                               Page [JInt 5] false]))) 3.
Proof.
  apply (fetch_returns_in_arrival_order (Some "t") "u" (Some 3%Z)
           [Page [JInt 1; JInt 2] true; Page [JInt 3; JInt 4] false; Page [JInt 5] false]).
  reflexivity.
Defined.

(** X4. Whatever the responses, the requests of a fetch go to the given URL
    with 100 items a page and start at page 1. After a request the fetch
    returns, or pauses 1 second and asks for the next page, or pauses 3601
    seconds and asks for the same page again. A fetch may also return right
    after a pause of 1 second, but only when a cap is set; it never returns
    right after a pause of 3601 seconds. The request a fetch still running
    stands at is counted as its last request. *)
Theorem fetch_paced (GITHUB_TOKEN : option string) (url : string) (max_items : option Z)
    (resps : list response) :
  paced url (has_cap max_items) 1
    (whole_trace url (fetch_paginated_data GITHUB_TOKEN url max_items resps)) = true.
Proof.
  unfold fetch_paginated_data.
  pose proof (loop_paced GITHUB_TOKEN url max_items resps {| all_items := []; page := 1 |}) as P.
  destruct (while_true _ _ _ _ _) as [tr [f|st]]; exact P.
Qed.

(** Traces the pacing refuses, and the capped scenario it accepts. *)
Example paced_examples :
  paced "u" false 1 [EvGet "u" 100 1; EvSleep 1] = false
  /\ paced "u" true 1 [EvGet "u" 100 1; EvSleep 1] = true
  /\ paced "u" true 1 [EvGet "u" 100 1; EvSleep 3601] = false
  /\ paced "u" true 1 [EvGet "u" 100 1; EvSleep 1; EvGet "u" 100 3] = false
  /\ paced "u" true 1 [EvGet "u" 100 1; EvGet "u" 100 2] = false.
Proof. repeat split. Qed.

(** X5. With a cap of zero or less the fetcher makes no request and returns
    the empty list, whatever the token and the responses. *)
Theorem nonpositive_cap_gives_nothing (GITHUB_TOKEN : option string) (url : string) (n : Z)
    (resps : list response) :
  (n <= 0)%Z ->
  fetch_paginated_data GITHUB_TOKEN url (Some n) resps = ([], Returned (Some [])).
Proof.
  intros H. unfold fetch_paginated_data.
  assert (B : before_request GITHUB_TOKEN (Some n) {| all_items := []; page := 1 |}
              = Some (Break {| all_items := []; page := 1 |})).
  { unfold before_request, cap_reached. cbn [all_items length].
    destruct (Z.leb_spec n (Z.of_nat 0)); [reflexivity | lia]. }
  destruct resps; cbn [while_true]; rewrite B; cbn [after_loop all_items];
    unfold slice_to; destruct (0 <=? n)%Z; now rewrite firstn_nil.
Qed.

Lemma nonpositive_cap_gives_nothing_witness :
  fetch_paginated_data (Some "t") "u" (Some (-3)%Z) [Page [JInt 1] false]
  = ([], Returned (Some [])).
Proof.
  apply (nonpositive_cap_gives_nothing (Some "t") "u" (-3) [Page [JInt 1] false]). lia.
Defined.




Lemma total_sleep_app (a b : list event) :
  total_sleep (a ++ b) = total_sleep a + total_sleep b.
Proof.
  induction a as [|[u pp q|s] a IH]; cbn [app total_sleep]; [reflexivity | exact IH | lia].
Qed.

Lemma pending_sleep (GITHUB_TOKEN : option string) (url : string) (max_items : option Z)
    (pre : list response) :
  forall st tr st',
    while_true GITHUB_TOKEN url max_items pre st = (tr, Pending st') ->
    total_sleep tr
    = length (List.filter is_page pre) + 3601 * length (List.filter rate_limited pre).
Proof.
  induction pre as [|r pre IH]; intros st tr st' H; cbn [while_true] in H.
  - destruct (before_request _ _ _); [discriminate|]. injection H as <- _. reflexivity.
  - destruct (before_request _ _ _); [discriminate|].
    destruct (after_request_cases st r) as [(evs & E & _)|[(E & P & _)|(E & R)]];
      rewrite E in H; try discriminate;
      destruct (while_true _ _ _ pre _) as [tr1 s1] eqn:L; unfold emit in H;
      cbn [fst snd] in H; injection H as <- ->; pose proof (IH _ _ _ L) as S;
      cbn [List.filter app total_sleep].
    + assert (R : rate_limited r = false) by (destruct r; [reflexivity | discriminate]).
      rewrite P, R. cbn [length]. lia.
    + assert (P : is_page r = false) by (destruct r; [discriminate | reflexivity]).
      rewrite P, R. cbn [length]. lia.
Qed.

(** X7. While a fetch is running, the time it has spent waiting is one
    second for each page received and 3601 seconds for each rate-limit
    rejection: nothing else makes it wait. *)
Theorem running_fetch_pauses (GITHUB_TOKEN : option string) (url : string)
    (max_items : option Z) (pre : list response) (tr : list event) (st : loop_state) :
  fetch_paginated_data GITHUB_TOKEN url max_items pre = (tr, Pending st) ->
  total_sleep tr
  = length (List.filter is_page pre) + 3601 * length (List.filter rate_limited pre).
Proof. intros H. apply fetch_pending in H. eapply pending_sleep. exact H. Qed.

Lemma running_fetch_pauses_witness :
  total_sleep [EvGet "u" 100 1; EvSleep 1; EvGet "u" 100 2; EvSleep 3601]
  = length (List.filter is_page
              [Page [JInt 1] true; RequestException "403 API rate limit exceeded"])
    + 3601 * length (List.filter rate_limited
                       [Page [JInt 1] true; RequestException "403 API rate limit exceeded"]).
Proof.
  apply (running_fetch_pauses (Some "t") "u" None
           [Page [JInt 1] true; RequestException "403 API rate limit exceeded"]
           [EvGet "u" 100 1; EvSleep 1; EvGet "u" 100 2; EvSleep 3601]
           {| all_items := [JInt 1]; page := 2 |}).
  reflexivity.
Defined.

(** X8. The fetcher returns [None] only when the token is unset or empty,
    and then before any request or pause. *)
Theorem none_only_without_token (GITHUB_TOKEN : option string) (url : string)
    (max_items : option Z) (resps : list response) (tr : list event) :
  fetch_paginated_data GITHUB_TOKEN url max_items resps = (tr, Returned None) ->
  PyStr.truthy GITHUB_TOKEN = false /\ tr = [].
Proof.
  unfold fetch_paginated_data. intros H.
  destruct (while_true _ _ _ _ _) as [tr0 [f|st']] eqn:L; [|discriminate].
  injection H as <- H. destruct (returned_state _ _ _ _ _ _ _ L) as [_ F].
  destruct f as [s|s|]; [contradiction| |tauto].
  cbn [after_loop] in H. destruct max_items; discriminate.
Qed.

Lemma none_only_without_token_witness :
  PyStr.truthy (Some EmptyString) = false /\ ([] : list event) = [].
Proof.
  apply (none_only_without_token (Some EmptyString) "u" None [Page [JInt 1] true]).
  reflexivity.
Defined.

(** ** The extractors: when they end normally, and what they leave *)

Lemma for_each_ok_iff {A S : Type} (body : A -> S -> result S) (P : A -> Prop) :
  (forall x s, (exists s', body x s = Ok s') <-> P x) ->
  forall l s, (exists s', Py.for_each l body s = Ok s') <-> Forall P l.
Proof.
  intros HP. induction l as [|x l IH]; intros s; cbn [Py.for_each].
  - split; [constructor | eauto].
  - split.
    + intros [s' H]. destruct (body x s) as [s1|e] eqn:B; [|discriminate]. cbn [bind] in H.
      constructor; [apply (HP x s); eauto | apply (IH s1); eauto].
    + intros H. inversion H as [|? ? Hx Hl]; subst.
      apply (HP x s) in Hx as [s1 ->]. cbn [bind]. apply IH. exact Hl.
Qed.

Lemma code_search_body_ok_iff (issue : json) (ds : list json) :
  (exists ds', code_search_body issue ds = Ok ds') <-> issue_ok issue.
Proof.
  unfold code_search_body, issue_ok.
  destruct (Py.contains "pull_request" issue) as [[|]|e]; cbn [bind negb].
  - split; [auto | eauto].
  - destruct (Py.getitem issue "id") as [a|]; cbn [bind];
      [|split; [intros [? [=]] | intros [[=]|(_ & ? & ? & ? & ? & [=] & _)]]].
    destruct (Py.getitem issue "title") as [b|]; cbn [bind];
      [|split; [intros [? [=]] | intros [[=]|(_ & ? & ? & ? & ? & _ & [=] & _)]]].
    destruct (Py.getitem issue "body") as [c|]; cbn [bind];
      [|split; [intros [? [=]] | intros [[=]|(_ & ? & ? & ? & ? & _ & _ & [=] & _)]]].
    destruct (Py.getitem issue "html_url") as [d|]; cbn [bind];
      [|split; [intros [? [=]] | intros [[=]|(_ & ? & ? & ? & ? & _ & _ & _ & [=])]]].
    split; [intros _; right; eauto 10 | eauto].
  - split; [intros [? [=]] | intros [[=]|[[=] _]]].
Qed.

(** X9. The loop over the issues ends normally exactly when every issue
    either carries the pull-request marker or has the keys id, title, body
    and html_url; one issue without one of them (or one that is not an
    object holding them) makes the whole task end with an exception, and
    nothing is written. *)
Theorem code_search_ends_normally_iff (issues : list json) (dataset0 : list json) :
  (exists dataset, Py.for_each issues code_search_body dataset0 = Ok dataset)
  <-> Forall issue_ok issues.
Proof. apply for_each_ok_iff. intros x s. apply code_search_body_ok_iff. Qed.

Lemma get_of_getitem (v : json) (k : string) (x default : json) :
  Py.getitem v k = Ok x -> Py.get v k default = Ok x.
Proof.
  destruct v; try discriminate. cbn [Py.getitem Py.get].
  destruct (Py.lookup k d); [auto | discriminate].
Qed.

Lemma commit_body_ok_iff (commit : json) (ds : commit_datasets) :
  (exists ds', commit_body commit ds = Ok ds') <-> commit_ok commit.
Proof.
  unfold commit_body, commit_ok. split.
  - intros [ds' H].
    destruct (Py.getitem commit "sha") as [sha|] eqn:Hs; [|discriminate]. cbn [bind] in H.
    destruct (Py.getitem commit "commit") as [inner|] eqn:Hc; [|discriminate]. cbn [bind] in H.
    destruct (Py.getitem inner "message") as [msg|] eqn:Hm; [|discriminate]. cbn [bind] in H.
    destruct (Py.getitem commit "parents") as [ps|] eqn:Hp; [|discriminate]. cbn [bind] in H.
    destruct (Py.len ps) as [n|] eqn:Hn; [|discriminate]. cbn [bind] in H.
    exists sha, inner, msg, ps, n. repeat (split; [first [reflexivity | assumption]|]).
    destruct (1 <? n)%nat eqn:Hlt; [left; now apply Nat.ltb_lt|].
    apply Nat.ltb_ge in Hlt. right. split; [assumption|].
    rewrite (get_of_getitem _ _ _ _ Hc) in H. cbn [bind] in H.
    destruct inner as [| | | | |di]; try discriminate. cbn [Py.get Py.getitem] in H |- *.
    destruct (Py.lookup "author" di) as [a|]; cbn [bind] in H.
    + destruct a as [| | | | |da]; try discriminate. cbn [Py.get] in H.
      destruct (Py.lookup "name" da); cbn [bind] in H;
        (destruct msg; try discriminate; split; eauto).
    + cbn [Py.get Py.lookup bind] in H. destruct msg; try discriminate. split; eauto.
  - intros (sha & inner & msg & ps & n & Hs & Hc & Hm & Hp & Hn & Hcase).
    rewrite Hs, Hc. cbn [bind]. rewrite Hm, Hp. cbn [bind]. rewrite Hn. cbn [bind].
    destruct Hcase as [Hn1|(Hn1 & [s ->] & Ha)].
    + apply Nat.ltb_lt in Hn1. rewrite Hn1. eauto.
    + destruct (Nat.ltb_spec 1 n); [lia|].
      rewrite (get_of_getitem _ _ _ _ Hc). cbn [bind].
      destruct inner as [| | | | |di]; try discriminate. cbn [Py.get Py.getitem] in Ha |- *.
      destruct (Py.lookup "author" di) as [a|]; cbn [bind].
      * destruct Ha as [da ->]. cbn [Py.get]. destruct (Py.lookup "name" da); cbn [bind search_message];
          destruct (Re.search fix_keywords s); eauto.
      * cbn [Py.get Py.lookup bind search_message]. destruct (Re.search fix_keywords s); eauto.
Qed.

(** X10. The loop over the commits ends normally exactly when every commit
    has a sha, a nested commit with a message, and parents that have a
    length, and, when it has at most one parent, a message that is a string
    and an author that is absent or an object. A commit with more than one
    parent must still have its sha and message: they are read before the
    parents are counted. *)
Theorem commits_end_normally_iff (commits : list json) (ds0 : commit_datasets) :
  (exists ds, Py.for_each commits commit_body ds0 = Ok ds) <-> Forall commit_ok commits.
Proof. apply for_each_ok_iff. intros x s. apply commit_body_ok_iff. Qed.

(** X11. An author entry that is there but is not an object (a null, for
    instance) ends the pass over a commit of at most one parent with
    [AttributeError]: the default [{}] of [.get('author', {})] only stands in
    for a missing key. *)
Theorem author_not_an_object_raises (commit inner sha author : json) (msg : string)
    (parents : list json) (ds : commit_datasets) :
  Py.getitem commit "sha" = Ok sha ->
  Py.getitem commit "commit" = Ok inner ->
  Py.getitem inner "message" = Ok (JStr msg) ->
  Py.getitem commit "parents" = Ok (JList parents) ->
  length parents <= 1 ->
  Py.getitem inner "author" = Ok author ->
  (forall d, author <> JDict d) ->
  commit_body commit ds = Raise AttributeError.
Proof.
  intros Hs Hc Hm Hp Hn Ha Hd. unfold commit_body. rewrite Hs, Hc. cbn [bind].
  rewrite Hm, Hp. cbn [bind Py.len]. destruct (Nat.ltb_spec 1 (length parents)); [lia|].
  rewrite (get_of_getitem _ _ _ _ Hc). cbn [bind].
  rewrite (get_of_getitem _ _ _ _ Ha). cbn [bind].
  destruct author as [| | | | |d]; try reflexivity. exfalso. now apply (Hd d).
Qed.

Lemma author_not_an_object_raises_witness :
  commit_body (raw_commit "a1" "Fix docs" (Some JNull) [JStr "p"])
    {| dataset_code_repair := []; dataset_commit_gen := [] |}
  = Raise AttributeError.
Proof.
  apply (author_not_an_object_raises (raw_commit "a1" "Fix docs" (Some JNull) [JStr "p"])
           (JDict [("message", JStr "Fix docs"); ("author", JNull)]) (JStr "a1") JNull
           "Fix docs" [JStr "p"]); try reflexivity.
  intros d. discriminate.
Defined.

Lemma label_names_ok (labels names : list json) :
  label_names labels = Ok names -> names = map (fun label => field label "name") labels.
Proof.
  revert names. induction labels as [|l labels IH]; intros names H; cbn [label_names] in H.
  - now injection H as <-.
  - destruct (Py.getitem l "name") as [n|] eqn:G; [|discriminate]. cbn [bind] in H.
    destruct (label_names labels) as [ns|]; [|discriminate]. cbn [bind] in H.
    injection H as <-. cbn [map]. rewrite (getitem_field _ _ _ G), <- (IH ns eq_refl).
    reflexivity.
Qed.

Lemma bug_classification_body_ok (pr : json) (ds ds' : list json) :
  bug_classification_body pr ds = Ok ds' ->
  ds' = ds ++ [pr_record pr]
  /\ exists labels, Py.iter (field pr "labels") = Ok labels
                    /\ pr_label_names pr = map (fun label => field label "name") labels.
Proof.
  unfold bug_classification_body, pr_record, pr_label_names, field.
  destruct (Py.getitem pr "id"); [|discriminate]. cbn [bind].
  destruct (Py.getitem pr "number"); [|discriminate]. cbn [bind].
  destruct (Py.getitem pr "title"); [|discriminate]. cbn [bind].
  destruct (Py.getitem pr "labels") as [ls|]; [|discriminate]. cbn [bind].
  destruct (Py.iter ls) as [labels|]; [|discriminate]. cbn [bind].
  destruct (label_names labels) as [names|] eqn:N; [|discriminate]. cbn [bind].
  destruct (Py.getitem pr "diff_url"); [|discriminate]. cbn [bind].
  destruct (Py.getitem pr "state"); [|discriminate]. cbn [bind].
  intros [= <-]. split; [reflexivity|]. exists labels. split; [reflexivity|].
  now apply label_names_ok.
Qed.

(** X12. When the loop over the pull requests ends normally it has made one
    record for each pull request, in order and without leaving any out:
    [{task, id, pr_number, title, labels, diff_url, state}], where labels is
    the list of the name of each label, in order. *)
Theorem bug_classification_keeps_all (pull_requests dataset : list json) :
  Py.for_each pull_requests bug_classification_body [] = Ok dataset ->
  dataset = map pr_record pull_requests
  /\ length dataset = length pull_requests
  /\ forall pr, In pr pull_requests ->
       exists labels, Py.iter (field pr "labels") = Ok labels
                      /\ pr_label_names pr = map (fun label => field label "name") labels
                      /\ Py.getitem (pr_record pr) "labels"
                         = Ok (JList (map (fun label => field label "name") labels)).
Proof.
  intros H.
  assert (E : forall l d0 d, Py.for_each l bug_classification_body d0 = Ok d ->
                d = d0 ++ map pr_record l).
  { induction l as [|pr l IH]; intros d0 d Hl; cbn [Py.for_each] in Hl.
    - injection Hl as <-. cbn. now rewrite app_nil_r.
    - destruct (bug_classification_body pr d0) as [d1|] eqn:B; [|discriminate]. cbn [bind] in Hl.
      apply bug_classification_body_ok in B as [-> _]. apply IH in Hl. subst.
      cbn [map]. now rewrite <- app_assoc. }
  pose proof (E _ _ _ H) as D. cbn [app] in D. split; [exact D|]. split.
  - now rewrite D, length_map.
  - intros pr Hin. destruct (for_each_each _ _ _ _ H pr Hin) as (s1 & s2 & B).
    apply bug_classification_body_ok in B as [_ (labels & I & L)].
    exists labels. split; [exact I|]. split; [exact L|]. cbn. now rewrite L.
Qed.

Lemma bug_classification_keeps_all_witness :
  [JDict [("task", JStr "bug_classification"); ("id", JInt 9); ("pr_number", JInt 42);
          ("title", JStr "Fix scaler"); ("labels", JList [JStr "Bug"; JStr "module:preprocessing"]);
          ("diff_url", JStr "d"); ("state", JStr "open")]]
  = map pr_record
      [JDict [("id", JInt 9); ("number", JInt 42); ("title", JStr "Fix scaler");
              ("labels", JList [JDict [("name", JStr "Bug")];
                                JDict [("id", JInt 3); ("name", JStr "module:preprocessing")]]);
              ("diff_url", JStr "d"); ("state", JStr "open")]].
Proof.
  apply (bug_classification_keeps_all
           [JDict [("id", JInt 9); ("number", JInt 42); ("title", JStr "Fix scaler");
                   ("labels", JList [JDict [("name", JStr "Bug")];
                                     JDict [("id", JInt 3); ("name", JStr "module:preprocessing")]]);
                   ("diff_url", JStr "d"); ("state", JStr "open")]]).
  reflexivity.
Defined.

(** ** The files the tasks leave *)

Lemma save_lookup (filename : string) (data_list : list json) (fs : gmap string string) :
  save_to_jsonl filename data_list fs !! filename = Some (jsonl_text data_list).
Proof.
  unfold save_to_jsonl. now rewrite written_text, append_nil_l, lookup_insert_eq.
Qed.

Lemma save_lookup_ne (filename other : string) (data_list : list json)
    (fs : gmap string string) :
  other <> filename -> save_to_jsonl filename data_list fs !! other = fs !! other.
Proof. intros H. unfold save_to_jsonl. apply lookup_insert_ne. congruence. Qed.

Lemma read_jsonl_text (data_list : list json) :
  JsonRead.read_jsonl (jsonl_text data_list) = Some data_list.
Proof. unfold JsonRead.read_jsonl. rewrite lines_jsonl_text. apply load_all_dumps. Qed.

Lemma length_lines_text (data_list : list json) :
  length (JsonRead.lines (jsonl_text data_list)) = length data_list.
Proof. now rewrite lines_jsonl_text, length_map. Qed.

(** X13. Writing a second list under a name leaves only the second list in
    the file (the file is opened with mode ['w'], not appended to): reading
    the file back gives the second list, and the files are as if the first
    list had never been written. *)
Theorem save_overwrites (filename : string) (first second : list json)
    (fs : gmap string string) :
  save_to_jsonl filename second (save_to_jsonl filename first fs)
  = save_to_jsonl filename second fs
  /\ exists content,
      save_to_jsonl filename second (save_to_jsonl filename first fs) !! filename
      = Some content
      /\ JsonRead.read_jsonl content = Some second.
Proof.
  split.
  - unfold save_to_jsonl. apply insert_insert_eq.
  - exists (jsonl_text second). split; [apply save_lookup | apply read_jsonl_text].
Qed.

(** X14. When the fetch of the commits returns a list and the loop over it
    ends normally, the commit task leaves exactly two files, one for each of
    its lists, and touches no other file; each file reads back as its list,
    and the code-repair file never has more lines than the commit-generation
    file. *)
Theorem commit_task_writes_both_files (GITHUB_TOKEN : option string) (max_items : option Z)
    (resps : list response) (fs : gmap string string) (tr : list event)
    (commits : list json) (ds : commit_datasets) :
  fetch_paginated_data GITHUB_TOKEN (BASE_URL +:+ "/commits") max_items resps
  = (tr, Returned (Some commits)) ->
  Py.for_each commits commit_body {| dataset_code_repair := []; dataset_commit_gen := [] |}
  = Ok ds ->
  exists fs' gen repair,
    task_2_and_4_commits GITHUB_TOKEN max_items resps fs = (tr, Returned (Ok fs'))
    /\ fs' !! "task_4_commit_gen.jsonl" = Some gen
    /\ fs' !! "task_2_code_repair.jsonl" = Some repair
    /\ JsonRead.read_jsonl gen = Some (dataset_commit_gen ds)
    /\ JsonRead.read_jsonl repair = Some (dataset_code_repair ds)
    /\ length (JsonRead.lines repair) <= length (JsonRead.lines gen)
    /\ (forall other, other <> "task_4_commit_gen.jsonl" ->
                      other <> "task_2_code_repair.jsonl" -> fs' !! other = fs !! other).
Proof.
  intros F H. unfold task_2_and_4_commits. rewrite F, H. cbn [bind].
  eexists _, (jsonl_text (dataset_commit_gen ds)), (jsonl_text (dataset_code_repair ds)).
  split; [reflexivity|]. split; [|split; [|split; [|split; [|split]]]].
  - rewrite save_lookup_ne by discriminate. apply save_lookup.
  - apply save_lookup.
  - apply read_jsonl_text.
  - apply read_jsonl_text.
  - rewrite !length_lines_text. destruct (commit_loop _ _ _ H) as [G R]. simpl in G, R.
    rewrite G, R, !length_map. clear.
    induction commits as [|c l IH]; cbn [List.filter length]; [lia|].
    destruct (is_merge c); cbn [negb andb]; [exact IH|].
    destruct (message_matches c); cbn [length]; lia.
  - intros other H4 H2. now rewrite !save_lookup_ne.
Qed.

Lemma commit_task_writes_both_files_witness :
  exists fs' gen repair,
    task_2_and_4_commits (Some "t") None
      [Page [raw_commit "a1" "Add docs" None [JStr "p"];
             raw_commit "c3" "Fix typo" None [JStr "p"]] false] ∅
    = ([EvGet (BASE_URL +:+ "/commits") 100 1], Returned (Ok fs'))
    /\ fs' !! "task_4_commit_gen.jsonl" = Some gen
    /\ fs' !! "task_2_code_repair.jsonl" = Some repair
    /\ JsonRead.read_jsonl gen
       = Some [commit_record "commit_gen" (raw_commit "a1" "Add docs" None [JStr "p"]);
               commit_record "commit_gen" (raw_commit "c3" "Fix typo" None [JStr "p"])]
    /\ JsonRead.read_jsonl repair
       = Some [commit_record "code_repair" (raw_commit "c3" "Fix typo" None [JStr "p"])].
Proof.
  destruct (commit_task_writes_both_files (Some "t") None
              [Page [raw_commit "a1" "Add docs" None [JStr "p"];
                     raw_commit "c3" "Fix typo" None [JStr "p"]] false] ∅
              [EvGet (BASE_URL +:+ "/commits") 100 1]
              [raw_commit "a1" "Add docs" None [JStr "p"];
               raw_commit "c3" "Fix typo" None [JStr "p"]]
              {| dataset_code_repair :=
                   [commit_record "code_repair" (raw_commit "c3" "Fix typo" None [JStr "p"])];
                 dataset_commit_gen :=
                   [commit_record "commit_gen" (raw_commit "a1" "Add docs" None [JStr "p"]);
                    commit_record "commit_gen" (raw_commit "c3" "Fix typo" None [JStr "p"])] |}
              eq_refl eq_refl)
    as (fs' & gen & repair & T & G & R & RG & RR & _).
  exists fs', gen, repair. auto.
Defined.

Lemma fetch_some_length (GITHUB_TOKEN : option string) (url : string) (N : Z)
    (resps : list response) (tr : list event) (items : list json) :
  (0 <= N)%Z ->
  fetch_paginated_data GITHUB_TOKEN url (Some N) resps = (tr, Returned (Some items)) ->
  (Z.of_nat (length items) <= N)%Z.
Proof.
  intros HN. unfold fetch_paginated_data.
  destruct (while_true _ _ _ _ _) as [tr0 [f|st']]; [|discriminate].
  intros [= _ H]. destruct f as [s|s|]; cbn [after_loop] in H; try discriminate;
    injection H as <-; rewrite length_slice_to by exact HN; rewrite length_firstn; lia.
Qed.

Lemma fetch_not_none (GITHUB_TOKEN : option string) (url : string) (max_items : option Z)
    (resps : list response) (tr : list event) :
  PyStr.truthy GITHUB_TOKEN = true ->
  fetch_paginated_data GITHUB_TOKEN url max_items resps <> (tr, Returned None).
Proof.
  intros T. unfold fetch_paginated_data.
  destruct (while_true _ _ _ _ _) as [tr0 [f|st']] eqn:L; [|discriminate].
  intros [= _ H]. destruct (returned_state _ _ _ _ _ _ _ L) as [_ F].
  destruct f as [s|s|]; [contradiction| |].
  - cbn [after_loop] in H. destruct max_items; discriminate.
  - destruct F as [_ F]. congruence.
Qed.

(** X15. With a token and a cap [N >= 0], no file a task leaves has more
    than [N] lines: the cap on the records fetched carries over to the
    records written, for the issue file, the pull-request file and the two
    commit files. *)
Theorem cap_bounds_every_file (GITHUB_TOKEN : option string) (N : Z)
    (resps : list response) (fs fs' : gmap string string) (tr : list event) :
  PyStr.truthy GITHUB_TOKEN = true ->
  (0 <= N)%Z ->
  (task_1_code_search GITHUB_TOKEN (Some N) resps fs = (tr, Returned (Ok fs')) ->
   exists content, fs' !! "task_1_code_search.jsonl" = Some content
                   /\ (Z.of_nat (length (JsonRead.lines content)) <= N)%Z)
  /\ (task_3_bug_classification GITHUB_TOKEN (Some N) resps fs = (tr, Returned (Ok fs')) ->
      exists content, fs' !! "task_3_bug_classification.jsonl" = Some content
                      /\ (Z.of_nat (length (JsonRead.lines content)) <= N)%Z)
  /\ (task_2_and_4_commits GITHUB_TOKEN (Some N) resps fs = (tr, Returned (Ok fs')) ->
      exists gen repair,
        fs' !! "task_4_commit_gen.jsonl" = Some gen
        /\ fs' !! "task_2_code_repair.jsonl" = Some repair
        /\ (Z.of_nat (length (JsonRead.lines gen)) <= N)%Z
        /\ (Z.of_nat (length (JsonRead.lines repair)) <= N)%Z).
Proof.
  intros T HN. split; [|split].
  - unfold task_1_code_search.
    destruct (fetch_paginated_data _ _ _ _) as [tr0 [[issues|]|st]] eqn:F;
      [| exfalso; eapply fetch_not_none; eassumption | discriminate].
    destruct (Py.for_each issues code_search_body []) as [ds|] eqn:E; cbn [bind];
      [|discriminate].
    intros [= _ <-]. exists (jsonl_text ds). split; [apply save_lookup|].
    rewrite length_lines_text. apply code_search_loop in E. cbn [app] in E. subst ds.
    rewrite length_map. pose proof (fetch_some_length _ _ _ _ _ _ HN F).
    pose proof (filter_length_le (fun i => negb (marked i)) issues). lia.
  - unfold task_3_bug_classification.
    destruct (fetch_paginated_data _ _ _ _) as [tr0 [[prs|]|st]] eqn:F;
      [| exfalso; eapply fetch_not_none; eassumption | discriminate].
    destruct (Py.for_each prs bug_classification_body []) as [ds|] eqn:E; cbn [bind];
      [|discriminate].
    intros [= _ <-]. exists (jsonl_text ds). split; [apply save_lookup|].
    rewrite length_lines_text.
    assert (L : forall l d0 d, Py.for_each l bug_classification_body d0 = Ok d ->
                  length d = length d0 + length l).
    { induction l as [|pr l IH]; intros d0 d Hl; cbn [Py.for_each] in Hl.
      - injection Hl as <-. cbn. lia.
      - destruct (bug_classification_body pr d0) as [d1|] eqn:B; [|discriminate].
        cbn [bind] in Hl. apply bug_classification_body_ok in B as [-> _].
        apply IH in Hl. rewrite length_app in Hl. cbn [length] in *. lia. }
    apply L in E. cbn [length] in E. pose proof (fetch_some_length _ _ _ _ _ _ HN F). lia.
  - unfold task_2_and_4_commits.
    destruct (fetch_paginated_data _ _ _ _) as [tr0 [[commits|]|st]] eqn:F;
      [| exfalso; eapply fetch_not_none; eassumption | discriminate].
    destruct (Py.for_each commits commit_body _) as [ds|] eqn:E; cbn [bind]; [|discriminate].
    intros [= _ <-].
    exists (jsonl_text (dataset_commit_gen ds)), (jsonl_text (dataset_code_repair ds)).
    split; [rewrite save_lookup_ne by discriminate; apply save_lookup|].
    split; [apply save_lookup|]. rewrite !length_lines_text.
    destruct (commit_loop _ _ _ E) as [G R]. simpl in G, R. rewrite G, R, !length_map.
    pose proof (fetch_some_length _ _ _ _ _ _ HN F).
    pose proof (filter_length_le (fun c => negb (is_merge c)) commits).
    pose proof (filter_length_le (fun c => negb (is_merge c) && message_matches c) commits).
    lia.
Qed.

Lemma cap_bounds_every_file_witness :
  exists content,
    save_to_jsonl "task_1_code_search.jsonl"
      [code_search_record (JDict [("id", JInt 1); ("title", JStr "a"); ("body", JNull);
                                  ("html_url", JStr "u")])] ∅
    !! "task_1_code_search.jsonl" = Some content
    /\ (Z.of_nat (length (JsonRead.lines content)) <= 1)%Z.
Proof.
  apply (cap_bounds_every_file (Some "t") 1
           [Page [JDict [("id", JInt 1); ("title", JStr "a"); ("body", JNull);
                         ("html_url", JStr "u")];
                  JDict [("id", JInt 2); ("title", JStr "b"); ("body", JNull);
                         ("html_url", JStr "v")]] true] ∅ _
           [EvGet (BASE_URL +:+ "/issues") 100 1; EvSleep 1]);
    [reflexivity | lia | reflexivity].
Defined.

(** ** The pattern: letter case and single words *)

Lemma lower_char_idem (c : ascii) : PyStr.lower_char (PyStr.lower_char c) = PyStr.lower_char c.
Proof. destruct c as [[] [] [] [] [] [] [] []]; reflexivity. Qed.

Lemma word_opt_lower (p : option ascii) :
  Re.word_opt (option_map PyStr.lower_char p) = Re.word_opt p.
Proof. destruct p; [apply is_word_lower | reflexivity]. Qed.

Lemma rmatch_lower (r : Re.regex) :
  forall prev s k k',
    (forall p t, k' (option_map PyStr.lower_char p) (PyStr.lower t) = k p t) ->
    Re.rmatch r (option_map PyStr.lower_char prev) (PyStr.lower s) k' = Re.rmatch r prev s k.
Proof.
  induction r as [c|r1 IH1 r2 IH2|r1 IH1 r2 IH2|r1 IH1|]; intros prev s k k' Hk;
    cbn [Re.rmatch].
  - destruct s as [|a t]; [reflexivity|]. cbn [PyStr.lower].
    unfold Re.ci_eq. rewrite lower_char_idem.
    pose proof (Hk (Some a) t) as E. cbn [option_map] in E. now rewrite E.
  - apply IH1. intros p t. now apply IH2.
  - now rewrite (IH1 _ _ k k'), (IH2 _ _ k k').
  - now rewrite (IH1 _ _ k k'), Hk.
  - unfold Re.boundary. now rewrite word_opt_lower, head_lower, Hk.
Qed.

Lemma search_from_lower (r : Re.regex) (s : string) :
  forall prev,
    Re.search_from r (option_map PyStr.lower_char prev) (PyStr.lower s)
    = Re.search_from r prev s.
Proof.
  induction s as [|a t IH]; intros prev.
  - change (Re.rmatch r (option_map PyStr.lower_char prev) (PyStr.lower EmptyString)
              (fun _ _ => true) || false
            = Re.rmatch r prev EmptyString (fun _ _ => true) || false).
    now rewrite (rmatch_lower r prev EmptyString (fun _ _ => true) (fun _ _ => true)).
  - change (Re.rmatch r (option_map PyStr.lower_char prev) (PyStr.lower (String a t))
              (fun _ _ => true)
            || Re.search_from r (option_map PyStr.lower_char (Some a)) (PyStr.lower t)
            = Re.rmatch r prev (String a t) (fun _ _ => true)
              || Re.search_from r (Some a) t).
    rewrite (rmatch_lower r prev (String a t) (fun _ _ => true) (fun _ _ => true)) by auto.
    now rewrite (IH (Some a)).
Qed.

(** X16. Whether the pattern of the fix keywords is found in a message does
    not depend on the letter case of the message: two messages that are the
    same once in lower case are both matched or both not. *)
Theorem fix_keywords_ignore_case (s1 s2 : string) :
  PyStr.lower s1 = PyStr.lower s2 ->
  Re.search fix_keywords s1 = Re.search fix_keywords s2.
Proof.
  intros H. unfold Re.search.
  rewrite <- (search_from_lower fix_keywords s1 None),
          <- (search_from_lower fix_keywords s2 None).
  now rewrite H.
Qed.

Lemma fix_keywords_ignore_case_witness :
  Re.search fix_keywords "FIXES the Bug in PCA" = Re.search fix_keywords "fixes THE bug in pca".
Proof. apply (fix_keywords_ignore_case "FIXES the Bug in PCA" "fixes THE bug in pca"). reflexivity. Defined.

Lemma all_word_app (a b : string) : all_word (a +:+ b) = all_word a && all_word b.
Proof.
  induction a as [|c a IH]; [reflexivity|]. rewrite append_cons. cbn [all_word].
  now rewrite IH, andb_assoc.
Qed.

Lemma all_word_last (s : string) :
  all_word s = true -> Re.word_opt (last_char s) = false -> s = EmptyString.
Proof.
  induction s as [|c s IH]; [reflexivity|]. cbn [all_word]. intros H L.
  apply andb_true_iff in H as [Hc Hs]. destruct s as [|d s].
  - cbn in L. congruence.
  - change (last_char (String c (String d s))) with (last_char (String d s)) in L.
    discriminate (IH Hs L).
Qed.

Lemma all_word_head (s : string) :
  all_word s = true -> Re.word_opt (Re.head s) = false -> s = EmptyString.
Proof.
  destruct s as [|c s]; [reflexivity|]. cbn. intros H L.
  apply andb_true_iff in H as [Hc _]. congruence.
Qed.

(** X17. A message that is one unbroken run of word characters (letters,
    digits, underscore) is matched exactly when it is, letter case aside,
    one of fix, fixes, fixed, bug, patch, correct, corrects, corrected: a
    keyword inside a longer word does not count. *)
Theorem one_word_message (msg : string) :
  all_word msg = true ->
  Re.search fix_keywords msg = true <-> In (PyStr.lower msg) code_keywords.
Proof.
  intros W. rewrite fix_keywords_search. split.
  - intros (kw & Hin & pre & w & post & E & L & H1 & H2).
    rewrite E in W. rewrite !all_word_app in W.
    apply andb_true_iff in W as [Wp W]. apply andb_true_iff in W as [Ww Wq].
    rewrite (all_word_last pre Wp H1), (all_word_head post Wq H2) in E.
    rewrite append_nil_l, append_nil_r in E. subst msg. now rewrite L.
  - intros Hin. exists (PyStr.lower msg). split; [exact Hin|].
    exists EmptyString, msg, EmptyString. rewrite append_nil_l, append_nil_r. auto.
Qed.

Lemma one_word_message_witness :
  (Re.search fix_keywords "bugfix" = true <-> In (PyStr.lower "bugfix") code_keywords)
  /\ (Re.search fix_keywords "Corrects" = true <-> In (PyStr.lower "Corrects") code_keywords).
Proof.
  split; [apply (one_word_message "bugfix") | apply (one_word_message "Corrects")];
    reflexivity.
Defined.

(** ** The main workflow *)

Lemma emit_returned {A : Type} (tr tr' : list event) (r : list event * status A) (a : A) :
  emit tr r = (tr', Returned a) -> exists tr2, r = (tr2, Returned a) /\ tr' = tr ++ tr2.
Proof.
  destruct r as [tr2 [b|st]]; unfold emit; cbn [fst snd]; intros H; [|discriminate].
  injection H as <- <-. eauto.
Qed.

(** A task that ends normally with a token has written its list. *)
Lemma task_1_ok (GITHUB_TOKEN : option string) (max_items : option Z)
    (resps : list response) (fs fs' : gmap string string) (tr : list event) :
  PyStr.truthy GITHUB_TOKEN = true ->
  task_1_code_search GITHUB_TOKEN max_items resps fs = (tr, Returned (Ok fs')) ->
  exists dataset, fs' = save_to_jsonl "task_1_code_search.jsonl" dataset fs.
Proof.
  intros T. unfold task_1_code_search.
  destruct (fetch_paginated_data _ _ _ _) as [tr0 [[l|]|st]] eqn:F;
    [| exfalso; eapply fetch_not_none; eassumption | discriminate].
  destruct (Py.for_each l code_search_body []) as [ds|]; cbn [bind]; [|discriminate].
  intros [= _ <-]. eauto.
Qed.

Lemma task_3_ok (GITHUB_TOKEN : option string) (max_items : option Z)
    (resps : list response) (fs fs' : gmap string string) (tr : list event) :
  PyStr.truthy GITHUB_TOKEN = true ->
  task_3_bug_classification GITHUB_TOKEN max_items resps fs = (tr, Returned (Ok fs')) ->
  exists dataset, fs' = save_to_jsonl "task_3_bug_classification.jsonl" dataset fs.
Proof.
  intros T. unfold task_3_bug_classification.
  destruct (fetch_paginated_data _ _ _ _) as [tr0 [[l|]|st]] eqn:F;
    [| exfalso; eapply fetch_not_none; eassumption | discriminate].
  destruct (Py.for_each l bug_classification_body []) as [ds|]; cbn [bind]; [|discriminate].
  intros [= _ <-]. eauto.
Qed.

Lemma task_2_and_4_ok (GITHUB_TOKEN : option string) (max_items : option Z)
    (resps : list response) (fs fs' : gmap string string) (tr : list event) :
  PyStr.truthy GITHUB_TOKEN = true ->
  task_2_and_4_commits GITHUB_TOKEN max_items resps fs = (tr, Returned (Ok fs')) ->
  exists gen repair,
    fs' = save_to_jsonl "task_2_code_repair.jsonl" repair
            (save_to_jsonl "task_4_commit_gen.jsonl" gen fs).
Proof.
  intros T. unfold task_2_and_4_commits.
  destruct (fetch_paginated_data _ _ _ _) as [tr0 [[l|]|st]] eqn:F;
    [| exfalso; eapply fetch_not_none; eassumption | discriminate].
  destruct (Py.for_each l commit_body _) as [ds|]; cbn [bind]; [|discriminate].
  intros [= _ <-]. eauto.
Qed.

(** X18. When the main workflow ends normally, either there was no token and
    nothing was asked for or written, or all four files have been written,
    each holding the lines of a list of records, and no other file has been
    touched: a normal end never leaves only some of the files. *)
Theorem main_writes_all_or_nothing (GITHUB_TOKEN : option string)
    (issues pulls commits : list response) (fs fs' : gmap string string) (tr : list event) :
  main GITHUB_TOKEN issues pulls commits fs = (tr, Returned (Ok fs')) ->
  (PyStr.truthy GITHUB_TOKEN = false /\ tr = [] /\ fs' = fs)
  \/ (PyStr.truthy GITHUB_TOKEN = true
      /\ exists search bugs gen repair : list json,
          fs' !! "task_1_code_search.jsonl" = Some (jsonl_text search)
          /\ fs' !! "task_3_bug_classification.jsonl" = Some (jsonl_text bugs)
          /\ fs' !! "task_4_commit_gen.jsonl" = Some (jsonl_text gen)
          /\ fs' !! "task_2_code_repair.jsonl" = Some (jsonl_text repair)
          /\ forall other,
              other <> "task_1_code_search.jsonl" ->
              other <> "task_3_bug_classification.jsonl" ->
              other <> "task_4_commit_gen.jsonl" ->
              other <> "task_2_code_repair.jsonl" ->
              fs' !! other = fs !! other).
Proof.
  unfold main. destruct (PyStr.truthy GITHUB_TOKEN) eqn:T.
  2:{ intros [= <- <-]. left. auto. }
  intros H. right. split; [reflexivity|].
  unfold and_then in H.
  destruct (task_1_code_search _ _ _ _) as [tr1 [[fs1|e]|st]] eqn:T1; try discriminate.
  apply emit_returned in H as (tr2 & H & _).
  destruct (task_3_bug_classification _ _ _ _) as [tr3 [[fs3|e]|st]] eqn:T3; try discriminate.
  apply emit_returned in H as (tr4 & H & _).
  apply task_1_ok in T1 as [search ->]; [|exact T].
  apply task_3_ok in T3 as [bugs ->]; [|exact T].
  apply task_2_and_4_ok in H as (gen & repair & ->); [|exact T].
  exists search, bugs, gen, repair.
  split; [|split; [|split; [|split]]].
  - rewrite !save_lookup_ne by discriminate. apply save_lookup.
  - rewrite !save_lookup_ne by discriminate. apply save_lookup.
  - rewrite !save_lookup_ne by discriminate. apply save_lookup.
  - apply save_lookup.
  - intros other H1 H3 H4 H2. now rewrite !save_lookup_ne.
Qed.

Lemma main_writes_all_or_nothing_witness :
  exists search : list json,
    save_to_jsonl "task_2_code_repair.jsonl" []
      (save_to_jsonl "task_4_commit_gen.jsonl" []
         (save_to_jsonl "task_3_bug_classification.jsonl" []
            (save_to_jsonl "task_1_code_search.jsonl" [] ∅)))
    !! "task_1_code_search.jsonl" = Some (jsonl_text search).
Proof.
  destruct (main_writes_all_or_nothing (Some "t") [Page [] false] [Page [] false]
              [Page [] false] ∅
              (save_to_jsonl "task_2_code_repair.jsonl" []
                 (save_to_jsonl "task_4_commit_gen.jsonl" []
                    (save_to_jsonl "task_3_bug_classification.jsonl" []
                       (save_to_jsonl "task_1_code_search.jsonl" [] ∅))))
              [EvGet (BASE_URL +:+ "/issues") 100 1; EvGet (BASE_URL +:+ "/pulls") 100 1;
               EvGet (BASE_URL +:+ "/commits") 100 1] eq_refl)
    as [[T _]|(_ & search & _ & _ & _ & H & _)]; [discriminate T|].
  exists search. exact H.
Defined.

(** On a normal end the files on disk are the files the workflow returns. *)
Lemma main_disk_normal (GITHUB_TOKEN : option string) (issues pulls commits : list response)
    (fs fs' : gmap string string) (tr : list event) :
  main GITHUB_TOKEN issues pulls commits fs = (tr, Returned (Ok fs')) ->
  main_disk GITHUB_TOKEN issues pulls commits fs = fs'.
Proof.
  unfold main, main_disk. destruct (PyStr.truthy GITHUB_TOKEN); [|now intros [= _ <-]].
  unfold and_then.
  destruct (task_1_code_search _ _ _ _) as [tr1 [[fs1|e]|st]]; try discriminate.
  intros H. apply emit_returned in H as (tr2 & H & _).
  destruct (task_3_bug_classification _ _ _ _) as [tr3 [[fs3|e]|st]]; try discriminate.
  apply emit_returned in H as (tr4 & H & _). rewrite H. reflexivity.
Qed.

(** The files stay when a later task fails: an exception in the pull-request
    task leaves the issue file written. *)
Example main_disk_after_pull_request_failure :
  main (Some "t") [Page [] false] [Page [JDict [("id", JInt 1)]] false] [Page [] false] ∅
  = ([EvGet (BASE_URL +:+ "/issues") 100 1; EvGet (BASE_URL +:+ "/pulls") 100 1],
     Returned (Raise (KeyError "number")))
  /\ main_disk (Some "t") [Page [] false] [Page [JDict [("id", JInt 1)]] false]
       [Page [] false] ∅
     = save_to_jsonl "task_1_code_search.jsonl" [] ∅.
Proof. split; reflexivity. Qed.


